(** * drug_gcn: the DDI model adapter of [ddi_zoo/src/model/drug_gcn.py]

    A shallow embedding of [GCNModel] (its [forward] family, [get_cls] and
    [register_classification_head]) and of the three architecture presets,
    followed by the properties proved about them.

    Python values are an inductive type, exceptions are an explicit result
    type, attribute namespaces and the head [ModuleDict] are finite maps, and
    the methods run in a state-and-exception monad whose state holds the model
    instance, the state of the external collaborators and two logs (encoder
    invocations, logger warnings). *)

From Stdlib Require Import ZArith.
From stdpp Require Import gmap strings list fin_maps.

Set Warnings "-register-all".
Local Open Scope Z_scope.
Local Open Scope nat_scope.

(** ** Exceptions and results *)

Inductive exn : Type :=
  | ValueError
  | IndexError
  | KeyError (key : option string)
  | TypeError
  | AttributeError (attr : string)
  | NotImplementedError (msg : string)
  | Raised (tag : string).

Inductive result (A : Type) : Type :=
  | Ok (a : A)
  | Err (e : exn).
Arguments Ok {A} a.
Arguments Err {A} e.

Definition bindR {A B : Type} (r : result A) (k : A -> result B) : result B :=
  match r with
  | Ok a => k a
  | Err e => Err e
  end.

Definition mapR {A B : Type} (f : A -> B) (r : result A) : result B :=
  bindR r (fun a => Ok (f a)).

Definition is_ok {A : Type} (r : result A) : bool :=
  match r with
  | Ok _ => true
  | Err _ => false
  end.

(** ** Tensors

    A tensor is its shape and its elements in row-major order.  The element
    type [F] stands for the floating-point numbers and is left abstract. *)

Record Tensor (F : Type) : Type := mkTensor {
  shape : list nat;
  data : list F
}.
Arguments mkTensor {F} shape data.
Arguments shape {F} t.
Arguments data {F} t.

Definition numel (sh : list nat) : nat := foldr Nat.mul 1 sh.

Definition tensor_wf {F : Type} (t : Tensor F) : Prop :=
  length (data t) = numel (shape t).

(** Row-major offset of a multi-index, [None] when the index has the wrong
    rank or is out of bounds. *)
Fixpoint offset (sh idx : list nat) : option nat :=
  match sh, idx with
  | [], [] => Some 0
  | d :: sh', i :: idx' =>
      if decide (i < d)
      then option_map (fun o => i * numel sh' + o) (offset sh' idx')
      else None
  | _, _ => None
  end.

Definition tensor_get {F : Type} (t : Tensor F) (idx : list nat) : option F :=
  match offset (shape t) idx with
  | Some o => data t !! o
  | None => None
  end.

(** [x[:, -1, :]]: keep dimension 0, select the last position of dimension
    1, keep what follows.  Indexing a tensor of rank below 3 with three
    indices raises [IndexError], and so does the index [-1] into an empty
    dimension. *)
Definition select_last (F : Type) (t : Tensor F) : result (Tensor F) :=
  match shape t with
  | d0 :: d1 :: d2 :: rest =>
      match d1 with
      | O => Err IndexError
      | S last =>
          let inner := numel (d2 :: rest) in
          Ok (mkTensor (d0 :: d2 :: rest)
                (flat_map (fun i => take inner (drop ((i * d1 + last) * inner) (data t)))
                          (seq 0 d0)))
      end
  | _ => Err IndexError
  end.
Arguments select_last {F} t.

(** ** Python values *)

Inductive pyval (F : Type) : Type :=
  | PyNone
  | PyBool (b : bool)
  | PyInt (n : Z)
  | PyFloat (x : F)
  | PyStr (s : string)
  | PyTensor (t : Tensor F)
  | PyTuple (items : list (pyval F))
  | PyList (items : list (pyval F)).
Arguments PyNone {F}.
Arguments PyBool {F} b.
Arguments PyInt {F} n.
Arguments PyFloat {F} x.
Arguments PyStr {F} s.
Arguments PyTensor {F} t.
Arguments PyTuple {F} items.
Arguments PyList {F} items.

Fixpoint pyval_size {F : Type} (v : pyval F) : nat :=
  match v with
  | PyTuple items | PyList items => S (list_sum (map pyval_size items))
  | _ => 1
  end.

Definition is_None {F : Type} (v : pyval F) : bool :=
  match v with PyNone => true | _ => false end.

Definition isinstance_Tensor {F : Type} (v : pyval F) : bool :=
  match v with PyTensor _ => true | _ => false end.

Definition isinstance_tuple {F : Type} (v : pyval F) : bool :=
  match v with PyTuple _ => true | _ => false end.

(** ** [GCNModel.get_cls] *)

Definition get_cls {F : Type} (x : pyval F) : result (pyval F) :=
  match x with
  | PyNone => Ok (PyInt 0)
  | PyTensor t => mapR PyTensor (select_last t)
  | PyTuple items =>
      match items with
      | first :: _ => Ok first
      | [] => Err IndexError
      end
  | _ => Err ValueError
  end.

(** ** [GCNModel.get_targets] *)

Definition get_targets {F : Type} (target input : pyval F) : pyval F := target.

(** ** Attribute namespaces and the architecture presets

    [args] is a namespace: attribute name to value, an attribute may be
    absent.  [getattr(args, name, default)] and attribute assignment are
    lookup-with-default and insertion. *)

Definition getattr_default {F : Type} (ns : gmap string (pyval F)) (name : string)
    (dflt : pyval F) : pyval F :=
  default dflt (ns !! name).

Definition getattr {F : Type} (ns : gmap string (pyval F)) (name : string)
    : result (pyval F) :=
  match ns !! name with
  | Some v => Ok v
  | None => Err (AttributeError name)
  end.

Definition setattr {F : Type} (ns : gmap string (pyval F)) (name : string)
    (v : pyval F) : gmap string (pyval F) :=
  <[name := v]> ns.

Definition base_architecture {F : Type} (args : gmap string (pyval F))
    : gmap string (pyval F) :=
  let args := setattr args "gnn_number_layer"
                (getattr_default args "gnn_number_layer" (PyInt 6)) in
  let args := setattr args "gnn_embed_dim"
                (getattr_default args "gnn_embed_dim" (PyInt 384)) in
  args.

(** The two assignments that precede the delegation in [tiny_architecture]
    and [large_architecture]; [layers] is 2 and 12 respectively. *)
Definition fill_defaults {F : Type} (layers : Z) (args : gmap string (pyval F))
    : gmap string (pyval F) :=
  let args := setattr args "gnn_number_layer"
                (getattr_default args "gnn_number_layer" (PyInt layers)) in
  let args := setattr args "gnn_embed_dim"
                (getattr_default args "gnn_embed_dim" (PyInt 384)) in
  args.

Definition tiny_architecture {F : Type} (args : gmap string (pyval F))
    : gmap string (pyval F) :=
  let args := setattr args "gnn_number_layer"
                (getattr_default args "gnn_number_layer" (PyInt 2)) in
  let args := setattr args "gnn_embed_dim"
                (getattr_default args "gnn_embed_dim" (PyInt 384)) in
  base_architecture args.

Definition large_architecture {F : Type} (args : gmap string (pyval F))
    : gmap string (pyval F) :=
  let args := setattr args "gnn_number_layer"
                (getattr_default args "gnn_number_layer" (PyInt 12)) in
  let args := setattr args "gnn_embed_dim"
                (getattr_default args "gnn_embed_dim" (PyInt 384)) in
  base_architecture args.

(** ** External collaborators

    The encoder ([DeeperGCN]) and the two head classes of [.heads] are used
    through fixed call signatures only.  Each call may raise and may change
    the collaborators' own state [World] (parameters, buffers, random
    generator).  A head's [out_proj.out_features] and [dense.out_features]
    are attribute reads and may raise [AttributeError]. *)

Class Collaborators (F Encoder Head World : Type) : Type := {
  DeeperGCN : gmap string (pyval F) -> World -> result Encoder * World;
  encoder_call :
    Encoder -> gmap string (pyval F) -> World -> result (pyval F * pyval F) * World;
  encoder_output_features : Encoder -> option (pyval F);
  BinaryClassMLPHead :
    pyval F -> pyval F -> pyval F -> pyval F -> pyval F -> World -> result Head * World;
  BinaryClassFeatIntegrationHead :
    pyval F -> pyval F -> pyval F -> pyval F -> pyval F -> World -> result Head * World;
  out_proj_out_features : Head -> result Z;
  dense_out_features : Head -> result Z;
  head_call : Head -> pyval F -> pyval F -> pyval F -> World -> result (pyval F) * World;
  forward_NoDelta : Head -> pyval F -> pyval F -> pyval F -> World -> result (pyval F) * World;
  forward_deltaH : Head -> pyval F -> pyval F -> pyval F -> World -> result (pyval F) * World;
  forward_deltaT : Head -> pyval F -> pyval F -> pyval F -> World -> result (pyval F) * World
}.

(** ** The model instance and the run-time state *)

Record GCNModel (F Encoder Head : Type) : Type := mkGCNModel {
  args : gmap string (pyval F);
  encoder : Encoder;
  classification_heads : gmap string Head
}.
Arguments mkGCNModel {F Encoder Head} args encoder classification_heads.
Arguments args {F Encoder Head} g.
Arguments encoder {F Encoder Head} g.
Arguments classification_heads {F Encoder Head} g.

(** The arguments of the [logger.warning] call of
    [register_classification_head]. *)
Record Warning : Type := mkWarning {
  w_name : string;
  w_num_classes : option Z;
  w_prev_num_classes : Z;
  w_inner_dim : option Z;
  w_prev_inner_dim : Z
}.

Record State (F Encoder Head World : Type) : Type := mkState {
  self : GCNModel F Encoder Head;
  world : World;
  encoder_calls : list (gmap string (pyval F));
  warnings : list Warning
}.
Arguments mkState {F Encoder Head World} self world encoder_calls warnings.
Arguments self {F Encoder Head World} s.
Arguments world {F Encoder Head World} s.
Arguments encoder_calls {F Encoder Head World} s.
Arguments warnings {F Encoder Head World} s.

(** [GCNModel.__init__] *)
Definition GCNModel_init {F Encoder Head : Type} (args : gmap string (pyval F))
    (encoder : Encoder) : GCNModel F Encoder Head :=
  mkGCNModel args encoder ∅.

(** A freshly constructed model, before any method was called on it. *)
Definition fresh {F Encoder Head World : Type} (args : gmap string (pyval F))
    (encoder : Encoder) (w : World) : State F Encoder Head World :=
  mkState (GCNModel_init args encoder) w [] [].

(** ** The state-and-exception monad

    A raised exception keeps the state reached so far. *)

Definition M (S A : Type) : Type := S -> result A * S.

Definition ret {S A : Type} (a : A) : M S A := fun s => (Ok a, s).

Definition raise {S A : Type} (e : exn) : M S A := fun s => (Err e, s).

Definition bind {S A B : Type} (m : M S A) (k : A -> M S B) : M S B :=
  fun s =>
    match m s with
    | (Ok a, s') => k a s'
    | (Err e, s') => (Err e, s')
    end.

Definition lift {S A : Type} (r : result A) : M S A := fun s => (r, s).

Definition gets {S A : Type} (f : S -> A) : M S A := fun s => (Ok (f s), s).

Declare Scope py_scope.
Delimit Scope py_scope with py.
Notation "'let*' x ':=' m 'in' k" := (bind m (fun x => k))
  (at level 10, x pattern, m at level 100, k at level 200) : py_scope.
Notation "m ';;' k" := (bind m (fun _ => k))
  (at level 100, k at level 200, right associativity) : py_scope.
Local Open Scope py_scope.

(** ** The methods of [GCNModel] *)

Section Methods.
Context {F Encoder Head World : Type} `{!Collaborators F Encoder Head World}.

Abbreviation St := (State F Encoder Head World).
Abbreviation Namespace := (gmap string (pyval F)).

(** A call into a collaborator: it sees and may change [World]. *)
Definition extern {A : Type} (f : World -> result A * World) : M St A :=
  fun s =>
    let '(r, w) := f (world s) in
    (r, mkState (self s) w (encoder_calls s) (warnings s)).

(** [self.args.<name>] *)
Definition self_args (name : string) : M St (pyval F) :=
  fun s => (getattr (args (self s)) name, s).

(** [logger.warning(...)] *)
Definition logger_warning (w : Warning) : M St unit :=
  fun s => (Ok tt, mkState (self s) (world s) (encoder_calls s) (warnings s ++ [w])).

(** [self.classification_heads[name]]; the keys of a [ModuleDict] are
    strings, so the key [None] is never found. *)
Definition heads_getitem (name : option string) : M St Head :=
  fun s =>
    match name with
    | Some n =>
        match classification_heads (self s) !! n with
        | Some h => (Ok h, s)
        | None => (Err (KeyError name), s)
        end
    | None => (Err (KeyError None), s)
    end.

(** [self.classification_heads[name] = head] *)
Definition heads_setitem (name : string) (head : Head) : M St unit :=
  fun s =>
    let m := self s in
    (Ok tt,
     mkState (mkGCNModel (args m) (encoder m) (<[name := head]> (classification_heads m)))
             (world s) (encoder_calls s) (warnings s)).

(** The keyword arguments of the encoder call with [graph] and [kwargs]
    unpacked around [features_only=features_only].  A keyword given twice is a
    [TypeError] raised before the encoder runs.  [kwargs] is what the
    enclosing method collected in its own extra keywords, which cannot hold
    [features_only], a named parameter of that method; a map that holds it
    is treated as one more repeated keyword. *)
Definition keyword_arguments (graph : Namespace) (features_only : pyval F)
    (kwargs : Namespace) : result Namespace :=
  if decide (is_Some (graph !! "features_only")) then Err TypeError
  else if decide (is_Some (kwargs !! "features_only")) then Err TypeError
  else if decide (graph ##ₘ kwargs)
       then Ok (graph ∪ <["features_only" := features_only]> kwargs)
       else Err TypeError.

(** The encoder call of the three forward methods; every
    invocation that reaches the encoder is appended to [encoder_calls]. *)
Definition call_encoder (graph : Namespace) (features_only : pyval F)
    (kwargs : Namespace) : M St (pyval F * pyval F) :=
  fun s =>
    match keyword_arguments graph features_only kwargs with
    | Err e => (Err e, s)
    | Ok kw =>
        let '(r, w) := encoder_call (encoder (self s)) kw (world s) in
        (r, mkState (self s) w (encoder_calls s ++ [kw]) (warnings s))
    end.

Definition forward (drug_a_seq drug_b_seq : pyval F)
    (drug_a_graph drug_b_graph : Namespace) (net_rel : pyval F)
    (features_only : pyval F) (classification_head_name : option string)
    (kwargs : Namespace) : M St (pyval F) :=
  let features_only :=
    match classification_head_name with
    | Some _ => PyBool true
    | None => features_only
    end in
  let* (enc_a, _) := call_encoder drug_a_graph features_only kwargs in
  let* (enc_b, _) := call_encoder drug_b_graph features_only kwargs in
  let* enc_a := lift (get_cls enc_a) in
  let* enc_b := lift (get_cls enc_b) in
  let* head := heads_getitem classification_head_name in
  let* x := extern (head_call head enc_a enc_b net_rel) in
  ret x.

Definition forward_cons_neg (drug_a_seq drug_b_seq : pyval F)
    (drug_a_graph drug_b_graph : Namespace) (net_rel : pyval F)
    (features_only : pyval F) (classification_head_name : option string)
    (kwargs : Namespace) : M St (pyval F) :=
  let features_only :=
    match classification_head_name with
    | Some _ => PyBool true
    | None => features_only
    end in
  let* (enc_a, _) := call_encoder drug_a_graph features_only kwargs in
  let* (enc_b, _) := call_encoder drug_b_graph features_only kwargs in
  let* enc_a := lift (get_cls enc_a) in
  let* enc_b := lift (get_cls enc_b) in
  let* head := heads_getitem classification_head_name in
  let* x := extern (head_call head enc_a enc_b net_rel) in
  let* head := heads_getitem classification_head_name in
  let* x_ori := extern (forward_NoDelta head enc_a enc_b net_rel) in
  let* head := heads_getitem classification_head_name in
  let* x_deltaH := extern (forward_deltaH head enc_a enc_b net_rel) in
  let* head := heads_getitem classification_head_name in
  let* x_deltaT := extern (forward_deltaT head enc_a enc_b net_rel) in
  ret (PyTuple [x; x_deltaH; x_deltaT; x_ori]).

Definition forward_embed (drug_a_seq drug_b_seq : pyval F)
    (drug_a_graph drug_b_graph : Namespace) (net_rel : pyval F)
    (features_only : pyval F) (classification_head_name : option string)
    (kwargs : Namespace) : M St (pyval F) :=
  let features_only :=
    match classification_head_name with
    | Some _ => PyBool true
    | None => features_only
    end in
  let* (enc_a, _) := call_encoder drug_a_graph features_only kwargs in
  let* (enc_b, _) := call_encoder drug_b_graph features_only kwargs in
  let* enc_a := lift (get_cls enc_a) in
  let* enc_b := lift (get_cls enc_b) in
  ret (PyTuple [enc_a; enc_b]).

(** [num_classes] and [inner_dim] are an integer or [None]. *)
Definition opt_int (o : option Z) : pyval F :=
  match o with
  | Some n => PyInt n
  | None => PyNone
  end.

(** Truth value of an integer-or-[None], as the operator [or] tests it. *)
Definition truthy (o : option Z) : bool :=
  match o with
  | Some n => negb (n =? 0)%Z
  | None => false
  end.

(** [requested != prev] for a requested size that may be [None]. *)
Definition differs (requested : option Z) (prev : Z) : bool :=
  match requested with
  | Some n => negb (n =? prev)%Z
  | None => true
  end.

(** The closed set of head kinds. *)
Definition supported (name : string) : Prop :=
  name = "bclsmlp" \/ name = "bclsFeatInt".

Definition register_classification_head (name : string)
    (num_classes inner_dim : option Z) : M St unit :=
  (let* heads := gets (fun s => classification_heads (self s)) in
   match heads !! name with
   | Some prev =>
       let* prev_num_classes := lift (out_proj_out_features prev) in
       let* prev_inner_dim := lift (dense_out_features prev) in
       if differs num_classes prev_num_classes || differs inner_dim prev_inner_dim
       then logger_warning
              (mkWarning name num_classes prev_num_classes inner_dim prev_inner_dim)
       else ret tt
   | None => ret tt
   end) ;;
  if decide (name = "bclsmlp") then
    let* embed := self_args "gnn_embed_dim" in
    let* enc := gets (fun s => encoder (self s)) in
    let input_dim := default embed (encoder_output_features enc) in
    let* inner :=
      (if truthy inner_dim then ret (opt_int inner_dim)
       else self_args "gnn_embed_dim") in
    let* activation := self_args "pooler_activation_fn" in
    let* dropout := self_args "pooler_dropout" in
    let* head :=
      extern (BinaryClassMLPHead input_dim inner (opt_int num_classes)
                activation dropout) in
    heads_setitem name head
  else if decide (name = "bclsFeatInt") then
    let* embed := self_args "gnn_embed_dim" in
    let* enc := gets (fun s => encoder (self s)) in
    let input_dim := default embed (encoder_output_features enc) in
    let* inner :=
      (if truthy inner_dim then ret (opt_int inner_dim)
       else self_args "gnn_embed_dim") in
    let* activation := self_args "pooler_activation_fn" in
    let* dropout := self_args "pooler_dropout" in
    let* head :=
      extern (BinaryClassFeatIntegrationHead input_dim inner (opt_int num_classes)
                activation dropout) in
    heads_setitem name head
  else raise (NotImplementedError "No Implemented by DDI").

(** The two phases of [register_classification_head], as the properties
    below take the method apart: the comparison with the sizing of a head
    already registered under [name], and the construction and storing of a
    head of class [cls]. *)
Definition warn_if_resized (name : string) (num_classes inner_dim : option Z)
    : M St unit :=
  let* heads := gets (fun s => classification_heads (self s)) in
  match heads !! name with
  | Some prev =>
      let* prev_num_classes := lift (out_proj_out_features prev) in
      let* prev_inner_dim := lift (dense_out_features prev) in
      if differs num_classes prev_num_classes || differs inner_dim prev_inner_dim
      then logger_warning
             (mkWarning name num_classes prev_num_classes inner_dim prev_inner_dim)
      else ret tt
  | None => ret tt
  end.

Definition build_head
    (cls : pyval F -> pyval F -> pyval F -> pyval F -> pyval F ->
           World -> result Head * World)
    (name : string) (num_classes inner_dim : option Z) : M St unit :=
  let* embed := self_args "gnn_embed_dim" in
  let* enc := gets (fun s => encoder (self s)) in
  let input_dim := default embed (encoder_output_features enc) in
  let* inner :=
    (if truthy inner_dim then ret (opt_int inner_dim)
     else self_args "gnn_embed_dim") in
  let* activation := self_args "pooler_activation_fn" in
  let* dropout := self_args "pooler_dropout" in
  let* head := extern (cls input_dim inner (opt_int num_classes) activation dropout) in
  heads_setitem name head.

(** The head class that [register_classification_head] instantiates for a
    supported [name]. *)
Definition head_class (name : string)
    : pyval F -> pyval F -> pyval F -> pyval F -> pyval F -> World -> result Head * World :=
  if decide (name = "bclsmlp") then BinaryClassMLPHead
  else BinaryClassFeatIntegrationHead.

(** The value of [features_only] after the guard that opens the three
    forward methods. *)
Definition effective_features_only (features_only : pyval F)
    (classification_head_name : option string) : pyval F :=
  match classification_head_name with
  | Some _ => PyBool true
  | None => features_only
  end.

(** The encoder pass and the summary extraction that open the three forward
    methods, which differ only in what they do with the two summaries. *)
Definition encode_pair (drug_a_graph drug_b_graph : Namespace)
    (features_only : pyval F) (classification_head_name : option string)
    (kwargs : Namespace) : M St (pyval F * pyval F) :=
  let features_only :=
    effective_features_only features_only classification_head_name in
  let* (enc_a, _) := call_encoder drug_a_graph features_only kwargs in
  let* (enc_b, _) := call_encoder drug_b_graph features_only kwargs in
  let* enc_a := lift (get_cls enc_a) in
  let* enc_b := lift (get_cls enc_b) in
  ret (enc_a, enc_b).

(** An action is quiet when it leaves the model instance and both logs as
    they were; it may still change the collaborators' state. *)
Definition quiet {A : Type} (m : M St A) : Prop :=
  forall s, self (snd (m s)) = self s
    /\ encoder_calls (snd (m s)) = encoder_calls s
    /\ warnings (snd (m s)) = warnings s.

(** [records_calls m fo] : whatever the outcome of [m], the encoder
    invocations it adds to the log are at most two and each received
    [features_only = fo]; when [m] succeeds they are the invocation on
    [graph_a] followed by the one on [graph_b], each with [kwargs]. *)
Definition records_calls (m : M St (pyval F)) (graph_a graph_b : Namespace)
    (fo : pyval F) (kwargs : Namespace) : Prop :=
  forall s, exists l,
    encoder_calls (snd (m s)) = encoder_calls s ++ l
    /\ Forall (fun k : Namespace => k !! "features_only" = Some fo) l
    /\ length l <= 2
    /\ (is_ok (fst (m s)) = true ->
        exists ka kb,
          keyword_arguments graph_a fo kwargs = Ok ka
          /\ keyword_arguments graph_b fo kwargs = Ok kb
          /\ l = [ka; kb]).

(** What [get_cls] does not recognize. *)
Definition unrecognized (x : pyval F) : Prop :=
  is_None x = false /\ isinstance_Tensor x = false /\ isinstance_tuple x = false.

Definition max_positions : M St (pyval F) := self_args "max_positions".

(** [GCNModel.build_model]: the base preset is applied to [args] in place,
    the encoder is built from it, and the model keeps that same [args]. *)
Definition build_model (args : Namespace) (task : pyval F) (w : World)
    : result (GCNModel F Encoder Head) * World :=
  let args := base_architecture args in
  let '(r, w') := DeeperGCN args w in
  (mapR (GCNModel_init args) r, w').

(** ** The states a model instance can be in

    A method call with its arguments, and the states reached from a fresh
    instance by any sequence of method calls. *)

Inductive method : Type :=
  | Forward (drug_a_seq drug_b_seq : pyval F) (drug_a_graph drug_b_graph : Namespace)
      (net_rel features_only : pyval F) (classification_head_name : option string)
      (kwargs : Namespace)
  | ForwardConsNeg (drug_a_seq drug_b_seq : pyval F)
      (drug_a_graph drug_b_graph : Namespace)
      (net_rel features_only : pyval F) (classification_head_name : option string)
      (kwargs : Namespace)
  | ForwardEmbed (drug_a_seq drug_b_seq : pyval F)
      (drug_a_graph drug_b_graph : Namespace)
      (net_rel features_only : pyval F) (classification_head_name : option string)
      (kwargs : Namespace)
  | RegisterClassificationHead (name : string) (num_classes inner_dim : option Z)
  | MaxPositions.

Definition run_method (c : method) (s : St) : St :=
  match c with
  | Forward sa sb ga gb rel fo name kw => snd (forward sa sb ga gb rel fo name kw s)
  | ForwardConsNeg sa sb ga gb rel fo name kw =>
      snd (forward_cons_neg sa sb ga gb rel fo name kw s)
  | ForwardEmbed sa sb ga gb rel fo name kw =>
      snd (forward_embed sa sb ga gb rel fo name kw s)
  | RegisterClassificationHead name nc idim =>
      snd (register_classification_head name nc idim s)
  | MaxPositions => snd (max_positions s)
  end.

Inductive reachable : St -> Prop :=
  | reachable_fresh (args : Namespace) (enc : Encoder) (w : World)
      (calls : list Namespace) (warns : list Warning) :
      reachable (mkState (GCNModel_init args enc) w calls warns)
  | reachable_step (c : method) (s : St) :
      reachable s -> reachable (run_method c s).

End Methods.

(** ** A small concrete instance of the collaborators

    Used to run the methods on concrete inputs.  The encoder answers every
    call with a fixed output, a head records the arguments it was built
    from and answers with a tuple naming the entry point that was called,
    and [World] counts the calls made into the collaborators. *)

Module Toy.

Record ToyEncoder : Type := mkToyEncoder {
  toy_output : pyval Z;
  toy_output_features : option (pyval Z)
}.

Record ToyHead : Type := mkToyHead {
  toy_kind : string;
  toy_input_dim : pyval Z;
  toy_inner_dim : pyval Z;
  toy_num_classes : pyval Z;
  toy_activation : pyval Z;
  toy_dropout : pyval Z
}.

(** Like a linear layer, a head cannot be sized by something that is not an
    integer. *)
Definition toy_head_new (kind : string)
    (input_dim inner_dim num_classes activation dropout : pyval Z) (w : nat)
    : result ToyHead * nat :=
  match inner_dim, num_classes with
  | PyInt _, PyInt _ =>
      (Ok (mkToyHead kind input_dim inner_dim num_classes activation dropout), S w)
  | _, _ => (Err TypeError, w)
  end.

Definition toy_int (attr : string) (v : pyval Z) : result Z :=
  match v with
  | PyInt n => Ok n
  | _ => Err (AttributeError attr)
  end.

Definition toy_entry (entry : string) (h : ToyHead) (a b rel : pyval Z) (w : nat)
    : result (pyval Z) * nat :=
  (Ok (PyTuple [PyStr entry; PyStr (toy_kind h); a; b; rel]), S w).

#[global] Instance toy_collaborators : Collaborators Z ToyEncoder ToyHead nat := {|
  DeeperGCN := fun args w => (Ok (mkToyEncoder PyNone None), S w);
  encoder_call := fun enc kw w => (Ok (toy_output enc, PyNone), S w);
  encoder_output_features := toy_output_features;
  BinaryClassMLPHead := toy_head_new "BinaryClassMLPHead";
  BinaryClassFeatIntegrationHead := toy_head_new "BinaryClassFeatIntegrationHead";
  out_proj_out_features := fun h => toy_int "out_proj" (toy_num_classes h);
  dense_out_features := fun h => toy_int "dense" (toy_inner_dim h);
  head_call := toy_entry "forward";
  forward_NoDelta := toy_entry "forward_NoDelta";
  forward_deltaH := toy_entry "forward_deltaH";
  forward_deltaT := toy_entry "forward_deltaT"
|}.

(** A configuration holding what [register_classification_head] reads. *)
Definition toy_args : gmap string (pyval Z) :=
  <["pooler_dropout" := PyInt 0]>
    (<["pooler_activation_fn" := PyStr "tanh"]> (base_architecture ∅)).

(** A 2 x 2 x 3 sequence output. *)
Definition toy_tensor : Tensor Z :=
  mkTensor [2; 2; 3] [1; 2; 3; 4; 5; 6; 7; 8; 9; 10; 11; 12]%Z.

Definition toy_state (output : pyval Z) : State Z ToyEncoder ToyHead nat :=
  fresh toy_args (mkToyEncoder output None) 0.

Definition toy_graph (n : Z) : gmap string (pyval Z) := {[ "x" := PyInt n ]}.

(** The state after [register_classification_head("bclsmlp", num_classes=2)]
    on a fresh model whose encoder returns [toy_tensor]. *)
Definition toy_registered : State Z ToyEncoder ToyHead nat :=
  snd (register_classification_head "bclsmlp" (Some 2%Z) None
         (toy_state (PyTensor toy_tensor))).

End Toy.


(** ** The configuration dataclass [GCNConfig]

    The field defaults of the dataclass, as a namespace.  [tenth] and [zero]
    stand for the floating-point defaults 0.1 and 0.0;
    [max_source_positions] defaults to the interpolation string that [II]
    builds from its argument. *)

Definition GCNConfig {F : Type} (tenth zero : F) : gmap string (pyval F) :=
  list_to_map
    [ ("dropout", PyFloat tenth);
      ("max_positions", PyInt 512);
      ("gnn_number_layer", PyInt 12);
      ("gnn_dropout", PyFloat tenth);
      ("conv_encode_edge", PyBool true);
      ("gnn_embed_dim", PyInt 384);
      ("gnn_aggr", PyStr "maxminmean");
      ("gnn_norm", PyStr "batch");
      ("gnn_activation_fn", PyStr "relu");
      ("classification_head_name", PyStr EmptyString);
      ("load_checkpoint_heads", PyBool false);
      ("max_source_positions", PyStr "${model.max_positions}");
      ("no_token_positional_embeddings", PyBool false);
      ("pooler_activation_fn", PyStr "tanh");
      ("pooler_dropout", PyFloat zero);
      ("num_base_vector", PyInt 30);
      ("vector_group_size", PyInt 5);
      ("basic_vector_size", PyInt 3);
      ("code_dim", PyInt 64);
      ("dict_size", PyInt 200);
      ("num_head", PyInt 8) ].

(** The multi-index of a row-major offset, the inverse of [offset] on the
    offsets below [numel sh]. *)
Fixpoint unravel (sh : list nat) (o : nat) : list nat :=
  match sh with
  | [] => []
  | _ :: sh' => o / numel sh' :: unravel sh' (o mod numel sh')
  end.

(** ** The life of a model instance

    [reaches s0 s]: [s] is reached from [s0] by a sequence of method calls. *)

Inductive reaches {F Encoder Head World : Type} `{!Collaborators F Encoder Head World}
    (s0 : State F Encoder Head World) : State F Encoder Head World -> Prop :=
  | reaches_refl : reaches s0 s0
  | reaches_step (c : method) (s : State F Encoder Head World) :
      reaches s0 s -> reaches s0 (run_method c s).

(** [invokes_encoder m graph_a graph_b fo kwargs]: the encoder invocations
    that [m] makes, whatever its outcome.  The encoder is first invoked on
    [graph_a], unless the keyword arguments of that call clash; it is then
    invoked on [graph_b] if the first invocation returned and the keyword
    arguments of the second call do not clash.  No other invocation is made,
    and each one receives [features_only = fo]. *)
Definition invokes_encoder {F Encoder Head World : Type}
    `{!Collaborators F Encoder Head World} {A : Type}
    (m : M (State F Encoder Head World) A)
    (graph_a graph_b : gmap string (pyval F)) (fo : pyval F)
    (kwargs : gmap string (pyval F)) : Prop :=
  forall s,
    (forall e, keyword_arguments graph_a fo kwargs = Err e ->
       encoder_calls (snd (m s)) = encoder_calls s)
    /\ (forall ka, keyword_arguments graph_a fo kwargs = Ok ka ->
          ka !! "features_only" = Some fo
          /\ (forall e w1,
                encoder_call (encoder (self s)) ka (world s) = (Err e, w1) ->
                encoder_calls (snd (m s)) = encoder_calls s ++ [ka])
          /\ (forall r w1,
                encoder_call (encoder (self s)) ka (world s) = (Ok r, w1) ->
                (forall e, keyword_arguments graph_b fo kwargs = Err e ->
                   encoder_calls (snd (m s)) = encoder_calls s ++ [ka])
                /\ (forall kb, keyword_arguments graph_b fo kwargs = Ok kb ->
                      kb !! "features_only" = Some fo
                      /\ encoder_calls (snd (m s)) = encoder_calls s ++ [ka; kb]))).

(** The state [s] with the head mapping replaced by [heads]. *)
Definition with_heads {F Encoder Head World : Type} (heads : gmap string Head)
    (s : State F Encoder Head World) : State F Encoder Head World :=
  mkState (mkGCNModel (args (self s)) (encoder (self s)) heads)
    (world s) (encoder_calls s) (warnings s).

(** ** A second concrete instance, with an encoder that can fail

    The encoder raises when it is called with the keyword [fail] and answers
    with its fixed output otherwise; heads are those of [Toy]. *)

Module Flaky.

Record FlakyEncoder : Type := mkFlakyEncoder { flaky_output : pyval Z }.

Definition flaky_call (enc : FlakyEncoder) (kw : gmap string (pyval Z)) (w : nat)
    : result (pyval Z * pyval Z) * nat :=
  match kw !! "fail" with
  | Some _ => (Err (Raised "encoder"), S w)
  | None => (Ok (flaky_output enc, PyNone), S w)
  end.

#[global] Instance flaky_collaborators
    : Collaborators Z FlakyEncoder Toy.ToyHead nat := {|
  DeeperGCN := fun args w => (Err (Raised "DeeperGCN"), w);
  encoder_call := flaky_call;
  encoder_output_features := fun _ => Some (PyInt 64);
  BinaryClassMLPHead := Toy.toy_head_new "BinaryClassMLPHead";
  BinaryClassFeatIntegrationHead := Toy.toy_head_new "BinaryClassFeatIntegrationHead";
  out_proj_out_features := fun h => Toy.toy_int "out_proj" (Toy.toy_num_classes h);
  dense_out_features := fun h => Toy.toy_int "dense" (Toy.toy_inner_dim h);
  head_call := Toy.toy_entry "forward";
  forward_NoDelta := Toy.toy_entry "forward_NoDelta";
  forward_deltaH := Toy.toy_entry "forward_deltaH";
  forward_deltaT := Toy.toy_entry "forward_deltaT"
|}.

Definition flaky_state (output : pyval Z) : State Z FlakyEncoder Toy.ToyHead nat :=
  fresh ∅ (mkFlakyEncoder output) 0.

Definition failing_graph : gmap string (pyval Z) := {[ "fail" := PyBool true ]}.

End Flaky.

(** * Properties *)

(** ** Tensors: the slice taken by [select_last] *)

Lemma numel_cons (d : nat) (sh : list nat) : numel (d :: sh) = d * numel sh.
Proof. reflexivity. Qed.

Lemma offset_cons (d i : nat) (sh idx : list nat) :
  offset (d :: sh) (i :: idx)
  = if decide (i < d) then option_map (fun o => i * numel sh + o) (offset sh idx)
    else None.
Proof. reflexivity. Qed.

Lemma offset_lt (sh idx : list nat) (o : nat) :
  offset sh idx = Some o -> o < numel sh.
Proof.
  revert idx o. induction sh as [|d sh IH]; intros [|i idx] o; simpl; try done.
  - intros [= <-]. lia.
  - case_decide; [|done].
    destruct (offset sh idx) as [o'|] eqn:E; simpl; [|done].
    intros [= <-]. specialize (IH _ _ E). nia.
Qed.

(** A list made of [count] blocks of the same length [n], read at position
    [o] of block [i]. *)
Lemma lookup_blocks {A : Type} (f : nat -> list A) (n start count i o : nat) :
  (forall j, j < count -> length (f (start + j)) = n) ->
  i < count -> o < n ->
  flat_map f (seq start count) !! (i * n + o) = f (start + i) !! o.
Proof.
  revert start i. induction count as [|count IH]; intros start i Hlen Hi Ho; [lia|].
  simpl. destruct i as [|i].
  - rewrite Nat.add_0_r. simpl. apply lookup_app_l.
    specialize (Hlen 0). rewrite Nat.add_0_r in Hlen. rewrite Hlen; lia.
  - assert (Hs : length (f start) = n).
    { specialize (Hlen 0). rewrite Nat.add_0_r in Hlen. apply Hlen. lia. }
    rewrite lookup_app_r by (rewrite Hs; simpl; lia).
    rewrite Hs. replace (S i * n + o - n) with (i * n + o) by (simpl; lia).
    rewrite IH; [| |lia|done].
    + f_equal. f_equal. lia.
    + intros j Hj. replace (S start + j) with (start + S j) by lia.
      apply Hlen. lia.
Qed.

Lemma length_blocks {A : Type} (f : nat -> list A) (n start count : nat) :
  (forall j, j < count -> length (f (start + j)) = n) ->
  length (flat_map f (seq start count)) = count * n.
Proof.
  revert start. induction count as [|count IH]; intros start Hlen; [done|].
  simpl. rewrite length_app. rewrite IH.
  - specialize (Hlen 0). rewrite Nat.add_0_r in Hlen. rewrite Hlen; lia.
  - intros j Hj. replace (S start + j) with (start + S j) by lia.
    apply Hlen. lia.
Qed.

(** The block that [select_last] cuts out for row [i] has full length. *)
Lemma length_last_block {A : Type} (l : list A) (d0 last inner i : nat) :
  length l = d0 * (S last * inner) -> i < d0 ->
  length (take inner (drop ((i * S last + last) * inner) l)) = inner.
Proof.
  intros Hl Hi. rewrite length_take, length_drop, Hl.
  assert ((i * S last + last) * inner + inner <= d0 * (S last * inner)); [|lia].
  assert (H : (i + 1) * S last <= d0 * S last) by (apply Nat.mul_le_mono_r; lia).
  replace ((i * S last + last) * inner + inner) with ((i + 1) * S last * inner) by lia.
  rewrite Nat.mul_assoc. apply Nat.mul_le_mono_r. exact H.
Qed.

(** [select_last] on a tensor of rank at least 3 whose dimension 1 is not
    empty: it succeeds, drops dimension 1, keeps the tensor well formed, and
    the element at [i :: idx] of the result is the element at
    [i :: d1 - 1 :: idx] of the input. *)
Lemma select_last_spec {F : Type} (t : Tensor F) (d0 d1 d2 : nat) (rest : list nat) :
  shape t = d0 :: d1 :: d2 :: rest -> 0 < d1 ->
  exists t', select_last t = Ok t'
    /\ shape t' = d0 :: d2 :: rest
    /\ (tensor_wf t ->
        tensor_wf t'
        /\ forall i idx, tensor_get t' (i :: idx) = tensor_get t (i :: d1 - 1 :: idx)).
Proof.
  intros Hsh Hd1. destruct d1 as [|last]; [lia|].
  unfold select_last. rewrite Hsh. eexists. split; [reflexivity|].
  split; [reflexivity|]. intros Hwf. unfold tensor_wf in *. rewrite Hsh in Hwf.
  set (inner := numel (d2 :: rest)) in *.
  assert (Hlen : length (data t) = d0 * (S last * inner)) by (rewrite Hwf; reflexivity).
  split.
  - simpl shape. simpl data. rewrite (length_blocks _ inner).
    + reflexivity.
    + intros j Hj. simpl. apply (length_last_block _ d0); [exact Hlen|exact Hj].
  - intros i idx. unfold tensor_get. rewrite Hsh. simpl shape. simpl data.
    replace (S last - 1) with last by lia. rewrite !offset_cons.
    destruct (decide (i < d0)) as [Hi|Hi]; [|reflexivity].
    destruct (decide (last < S last)) as [_|?]; [|lia].
    fold inner.
    destruct (offset (d2 :: rest) idx) as [o|] eqn:Ho; [|reflexivity].
    cbn [option_map]. apply offset_lt in Ho. fold inner in Ho.
    rewrite (lookup_blocks _ inner); [| |exact Hi|exact Ho].
    + cbn beta. rewrite Nat.add_0_l, lookup_take_lt by exact Ho.
      rewrite lookup_drop. f_equal. rewrite numel_cons. fold inner. lia.
    + intros j Hj. simpl. apply (length_last_block _ d0); [exact Hlen|exact Hj].
Qed.

Lemma select_last_rank {F : Type} (t t' : Tensor F) :
  select_last t = Ok t' -> length (shape t) = S (length (shape t')).
Proof.
  unfold select_last.
  destruct (shape t) as [|d0 [|d1 [|d2 rest]]]; try done.
  destruct d1; [done|]. intros [= <-]. reflexivity.
Qed.

(** ** [get_cls] *)

Lemma pyval_size_first {F : Type} (first : pyval F) (rest : list (pyval F)) :
  pyval_size first < pyval_size (PyTuple (first :: rest)).
Proof. simpl. lia. Qed.

(** No value is its own summary. *)
Lemma get_cls_no_fixed_point {F : Type} (y : pyval F) : get_cls y <> Ok y.
Proof.
  destruct y as [| | | | |t|items|]; simpl; try discriminate.
  - unfold mapR. destruct (select_last t) as [t'|e] eqn:E; simpl; [|discriminate].
    intros [= ->]. apply select_last_rank in E. lia.
  - destruct items as [|first rest]; [discriminate|].
    intros [= Hfirst]. pose proof (pyval_size_first first rest) as Hlt.
    rewrite <- Hfirst in Hlt. lia.
Qed.

(** C1, as amended: [get_cls] returns the integer 0 for [None]; for a tensor
    of rank at least 3 whose dimension 1 is not empty it returns the slice at
    the last position of dimension 1, of shape (batch, dim) for an input of
    shape (batch, length, dim), every element of which is the corresponding
    element of the input at position length - 1; for a non-empty tuple it
    returns the first element unchanged.  For a tensor of lower rank or with
    an empty dimension 1, and for the empty tuple, the indexing raises
    [IndexError]. *)
Theorem get_cls_summary (F : Type) :
  get_cls (@PyNone F) = Ok (PyInt 0)
  /\ (forall (t : Tensor F) (d0 d1 d2 : nat) (rest : list nat),
        shape t = d0 :: d1 :: d2 :: rest -> 0 < d1 ->
        exists t', get_cls (PyTensor t) = Ok (PyTensor t')
          /\ shape t' = d0 :: d2 :: rest
          /\ (tensor_wf t ->
              tensor_wf t'
              /\ forall i idx,
                   tensor_get t' (i :: idx) = tensor_get t (i :: d1 - 1 :: idx)))
  /\ (forall (first : pyval F) (rest : list (pyval F)),
        get_cls (PyTuple (first :: rest)) = Ok first)
  /\ (forall t : Tensor F,
        length (shape t) < 3 \/ shape t !! 1 = Some 0 ->
        get_cls (PyTensor t) = Err IndexError)
  /\ get_cls (@PyTuple F []) = Err IndexError.
Proof.
  split; [reflexivity|]. split; [|split; [reflexivity|split; [|reflexivity]]].
  - intros t d0 d1 d2 rest Hsh Hd1.
    destruct (select_last_spec t d0 d1 d2 rest Hsh Hd1) as (t' & Hsel & Hsh' & Hwf).
    exists t'. simpl. rewrite Hsel. auto.
  - intros t H. simpl. unfold select_last.
    destruct (shape t) as [|d0 [|d1 [|d2 rest]]]; try reflexivity.
    destruct H as [H|H]; [simpl in H; lia|].
    simpl in H. injection H as ->. reflexivity.
Qed.

Lemma get_cls_summary_witness :
  exists t', get_cls (PyTensor Toy.toy_tensor) = Ok (PyTensor t')
    /\ shape t' = [2; 3] /\ tensor_wf t'
    /\ tensor_get t' [1; 2] = tensor_get Toy.toy_tensor [1; 1; 2].
Proof.
  destruct (get_cls_summary Z) as (_ & Htensor & _).
  destruct (Htensor Toy.toy_tensor 2 2 3 [] eq_refl ltac:(lia))
    as (t' & Hcls & Hsh & Hwf).
  destruct (Hwf eq_refl) as (Hwf' & Hget).
  exists t'. split; [exact Hcls|]. split; [exact Hsh|]. split; [exact Hwf'|].
  apply Hget.
Defined.

(** C1 as stated fails on the empty tuple, which has no first element, on a
    well-formed rank-3 tensor of shape (1, 0, 1), which has no last position,
    and on a well-formed rank-2 tensor, which three indices do not fit:
    [get_cls] returns nothing there. *)
Lemma get_cls_summary_counterexample :
  (forall v : pyval Z, get_cls (PyTuple []) <> Ok v)
  /\ tensor_wf (mkTensor (F:=Z) [1; 0; 1] [])
  /\ (forall v : pyval Z, get_cls (PyTensor (mkTensor [1; 0; 1] [])) <> Ok v)
  /\ tensor_wf (mkTensor [1; 2] [7; 8]%Z)
  /\ (forall v : pyval Z, get_cls (PyTensor (mkTensor [1; 2] [7; 8]%Z)) <> Ok v).
Proof.
  split; [discriminate|]. split; [reflexivity|]. split; [discriminate|].
  split; [reflexivity|discriminate].
Qed.

(** C2, as amended: [get_cls] is not idempotent.  Whenever [get_cls x]
    returns a summary [y], a second extraction does not return [y] again, so
    [get_cls (get_cls x)] differs from [get_cls x]; the summary 0 of [None]
    is rejected with [ValueError], the rank-2 summary of a rank-3 tensor is
    rejected with [IndexError], and the second extraction from the summary of
    a tuple is the extraction from its first element. *)
Theorem get_cls_not_idempotent (F : Type) (x y : pyval F) :
  get_cls x = Ok y ->
  get_cls y <> Ok y
  /\ bindR (get_cls x) get_cls <> get_cls x
  /\ (x = PyNone -> get_cls y = Err ValueError)
  /\ (forall t, x = PyTensor t -> length (shape t) = 3 -> get_cls y = Err IndexError)
  /\ (forall first rest, x = PyTuple (first :: rest) -> get_cls y = get_cls first).
Proof.
  intros Hx. split; [apply get_cls_no_fixed_point|].
  split; [rewrite Hx; simpl; apply get_cls_no_fixed_point|].
  split; [|split].
  - intros ->. simpl in Hx. injection Hx as <-. reflexivity.
  - intros t -> Hrank. simpl in Hx. unfold mapR in Hx.
    destruct (select_last t) as [t'|e] eqn:E; simpl in Hx; [|discriminate].
    injection Hx as <-. apply select_last_rank in E.
    simpl. unfold select_last.
    destruct (shape t') as [|d0 [|d1 [|d2 rest]]]; try reflexivity.
    simpl in E. lia.
  - intros first rest ->. simpl in Hx. injection Hx as <-. reflexivity.
Qed.

Lemma get_cls_not_idempotent_witness :
  bindR (get_cls (PyTensor Toy.toy_tensor)) get_cls
  <> get_cls (PyTensor Toy.toy_tensor).
Proof.
  exact (proj1 (proj2
    (get_cls_not_idempotent Z (PyTensor Toy.toy_tensor)
       (PyTensor (mkTensor [2; 3] [4; 5; 6; 10; 11; 12]%Z)) eq_refl))).
Defined.

(** C2 as stated fails on [None]: the first extraction returns 0, the second
    one raises [ValueError]. *)
Lemma get_cls_idempotent_counterexample :
  get_cls (@PyNone Z) = Ok (PyInt 0)
  /\ bindR (get_cls (@PyNone Z)) get_cls = Err ValueError
  /\ bindR (get_cls (@PyNone Z)) get_cls <> get_cls PyNone.
Proof. split; [reflexivity|]. split; [reflexivity|discriminate]. Qed.

(** Summary extraction rejects whatever is not [None], a tensor or a tuple. *)
Lemma get_cls_unrecognized {F : Type} (x : pyval F) :
  is_None x = false -> isinstance_Tensor x = false -> isinstance_tuple x = false ->
  get_cls x = Err ValueError.
Proof. destruct x; simpl; intros; done. Qed.

(** ** Architecture presets *)

Lemma fill_defaults_layers {F : Type} (layers : Z) (a : gmap string (pyval F)) :
  fill_defaults layers a !! "gnn_number_layer"
  = Some (default (PyInt layers) (a !! "gnn_number_layer")).
Proof.
  unfold fill_defaults, setattr, getattr_default.
  rewrite lookup_insert_ne by done. apply lookup_insert_eq.
Qed.

Lemma fill_defaults_embed {F : Type} (layers : Z) (a : gmap string (pyval F)) :
  fill_defaults layers a !! "gnn_embed_dim"
  = Some (default (PyInt 384) (a !! "gnn_embed_dim")).
Proof.
  unfold fill_defaults, setattr, getattr_default.
  rewrite lookup_insert_eq. by rewrite lookup_insert_ne.
Qed.

Lemma fill_defaults_other {F : Type} (layers : Z) (a : gmap string (pyval F))
    (name : string) :
  name <> "gnn_number_layer" -> name <> "gnn_embed_dim" ->
  fill_defaults layers a !! name = a !! name.
Proof.
  intros H1 H2. unfold fill_defaults, setattr. by rewrite !lookup_insert_ne.
Qed.

(** Filling defaults twice is filling them once: the first filling wins. *)
Lemma fill_defaults_absorb {F : Type} (l1 l2 : Z) (a : gmap string (pyval F)) :
  fill_defaults l1 (fill_defaults l2 a) = fill_defaults l2 a.
Proof.
  apply map_eq. intros name.
  destruct (decide (name = "gnn_number_layer")) as [->|H1].
  { by rewrite !fill_defaults_layers. }
  destruct (decide (name = "gnn_embed_dim")) as [->|H2].
  { by rewrite !fill_defaults_embed. }
  by rewrite !fill_defaults_other.
Qed.

Lemma base_architecture_fill {F : Type} (a : gmap string (pyval F)) :
  base_architecture a = fill_defaults 6 a.
Proof. reflexivity. Qed.

(** C7, as amended: each preset fills [gnn_number_layer] (base 6, tiny 2,
    large 12) and [gnn_embed_dim] (384) only where the configuration does not
    hold the attribute yet, and a value set beforehand is kept; no other
    attribute is touched; tiny and large are their own two assignments
    followed by the base preset, which then changes nothing. *)
Theorem presets_fill_defaults (F : Type) (a : gmap string (pyval F)) :
  base_architecture a !! "gnn_number_layer"
    = Some (default (PyInt 6) (a !! "gnn_number_layer"))
  /\ tiny_architecture a !! "gnn_number_layer"
    = Some (default (PyInt 2) (a !! "gnn_number_layer"))
  /\ large_architecture a !! "gnn_number_layer"
    = Some (default (PyInt 12) (a !! "gnn_number_layer"))
  /\ base_architecture a !! "gnn_embed_dim"
    = Some (default (PyInt 384) (a !! "gnn_embed_dim"))
  /\ tiny_architecture a !! "gnn_embed_dim"
    = Some (default (PyInt 384) (a !! "gnn_embed_dim"))
  /\ large_architecture a !! "gnn_embed_dim"
    = Some (default (PyInt 384) (a !! "gnn_embed_dim"))
  /\ (forall name, name <> "gnn_number_layer" -> name <> "gnn_embed_dim" ->
        base_architecture a !! name = a !! name
        /\ tiny_architecture a !! name = a !! name
        /\ large_architecture a !! name = a !! name)
  /\ tiny_architecture a = base_architecture (fill_defaults 2 a)
  /\ large_architecture a = base_architecture (fill_defaults 12 a)
  /\ base_architecture (fill_defaults 2 a) = fill_defaults 2 a
  /\ base_architecture (fill_defaults 12 a) = fill_defaults 12 a.
Proof.
  assert (Ht : tiny_architecture a = fill_defaults 2 a).
  { change (tiny_architecture a) with (base_architecture (fill_defaults 2 a)).
    rewrite base_architecture_fill. apply fill_defaults_absorb. }
  assert (Hl : large_architecture a = fill_defaults 12 a).
  { change (large_architecture a) with (base_architecture (fill_defaults 12 a)).
    rewrite base_architecture_fill. apply fill_defaults_absorb. }
  rewrite Ht, Hl, !base_architecture_fill, !fill_defaults_absorb.
  rewrite !fill_defaults_layers, !fill_defaults_embed.
  repeat split; try reflexivity; by apply fill_defaults_other.
Qed.

Lemma presets_fill_defaults_witness :
  tiny_architecture (∅ : gmap string (pyval Z)) !! "gnn_number_layer" = Some (PyInt 2)
  /\ large_architecture (∅ : gmap string (pyval Z)) !! "gnn_number_layer"
     = Some (PyInt 12)
  /\ base_architecture Toy.toy_args !! "pooler_dropout"
     = Toy.toy_args !! "pooler_dropout".
Proof.
  destruct (presets_fill_defaults Z ∅) as (_ & Htiny & Hlarge & _).
  destruct (presets_fill_defaults Z Toy.toy_args)
    as (_ & _ & _ & _ & _ & _ & Hother & _).
  split; [exact Htiny|]. split; [exact Hlarge|].
  apply (Hother "pooler_dropout"); discriminate.
Defined.

(** C7 as stated fails on a configuration whose [gnn_number_layer] was set
    to 5 beforehand: the tiny and the large preset both leave it at 5. *)
Lemma presets_counterexample :
  tiny_architecture (<["gnn_number_layer" := PyInt 5]> ∅ : gmap string (pyval Z))
    !! "gnn_number_layer" = Some (PyInt 5)
  /\ tiny_architecture (<["gnn_number_layer" := PyInt 5]> ∅ : gmap string (pyval Z))
    !! "gnn_number_layer" <> Some (PyInt 2)
  /\ large_architecture (<["gnn_number_layer" := PyInt 5]> ∅ : gmap string (pyval Z))
    !! "gnn_number_layer" <> Some (PyInt 12).
Proof.
  split; [by vm_compute|]. split; vm_compute; discriminate.
Qed.

(** ** The methods of [GCNModel] *)

Section Properties.
Context {F Encoder Head World : Type} `{!Collaborators F Encoder Head World}.

Abbreviation St := (State F Encoder Head World).
Abbreviation Namespace := (gmap string (pyval F)).

Implicit Types (s : St) (name : option string) (fo : pyval F).
Implicit Types (ga gb kw : Namespace).

(** *** Keyword arguments of the encoder call *)

Lemma keyword_arguments_ok ga fo kw (k : Namespace) :
  keyword_arguments ga fo kw = Ok k ->
  k = ga ∪ <["features_only" := fo]> kw
  /\ ga !! "features_only" = None
  /\ ga ##ₘ kw
  /\ k !! "features_only" = Some fo.
Proof.
  unfold keyword_arguments. repeat case_decide; try discriminate.
  intros [= <-]. assert (Hga : ga !! "features_only" = None).
  { destruct (ga !! "features_only") eqn:E; [|done]. exfalso; eauto. }
  repeat split; try done.
  rewrite lookup_union_r by done. apply lookup_insert_eq.
Qed.

(** *** Actions that leave the model and both logs alone *)

Lemma quiet_ret {A : Type} (a : A) : quiet (ret a : M St A).
Proof. by intros s. Qed.

Lemma quiet_raise {A : Type} (e : exn) : quiet (raise e : M St A).
Proof. by intros s. Qed.

Lemma quiet_lift {A : Type} (r : result A) : quiet (lift r : M St A).
Proof. by intros s. Qed.

Lemma quiet_gets {A : Type} (f : St -> A) : quiet (gets f).
Proof. by intros s. Qed.

Lemma quiet_self_args (attr : string) : quiet (self_args attr : M St _).
Proof. by intros s. Qed.

Lemma quiet_heads_getitem name : quiet (heads_getitem name : M St _).
Proof.
  intros s. unfold heads_getitem. destruct name as [n|]; [|done].
  by destruct (classification_heads (self s) !! n).
Qed.

Lemma quiet_extern {A : Type} (f : World -> result A * World) :
  quiet (extern f : M St A).
Proof. intros s. unfold extern. by destruct (f (world s)). Qed.

Lemma quiet_bind {A B : Type} (m : M St A) (k : A -> M St B) :
  quiet m -> (forall a, quiet (k a)) -> quiet (bind m k).
Proof.
  intros Hm Hk s. unfold bind. specialize (Hm s).
  destruct (m s) as [[a|e] s1]; simpl in *; [|done].
  destruct (Hk a s1) as (-> & -> & ->). done.
Qed.

Create HintDb quiet.
#[local] Hint Resolve quiet_ret quiet_raise quiet_lift quiet_gets quiet_self_args
  quiet_heads_getitem quiet_extern quiet_bind : quiet.

(** *** The shared opening of the forward methods *)

Lemma forward_unfold sa sb ga gb rel fo name kw s :
  forward sa sb ga gb rel fo name kw s
  = bind (encode_pair ga gb fo name kw)
      (fun p => let* head := heads_getitem name in
                let* x := extern (head_call head p.1 p.2 rel) in
                ret x) s.
Proof.
  unfold forward, encode_pair, effective_features_only, bind.
  repeat (case_match; simplify_eq/=; try done).
Qed.

Lemma forward_cons_neg_unfold sa sb ga gb rel fo name kw s :
  forward_cons_neg sa sb ga gb rel fo name kw s
  = bind (encode_pair ga gb fo name kw)
      (fun p => let* head := heads_getitem name in
                let* x := extern (head_call head p.1 p.2 rel) in
                let* head := heads_getitem name in
                let* x_ori := extern (forward_NoDelta head p.1 p.2 rel) in
                let* head := heads_getitem name in
                let* x_deltaH := extern (forward_deltaH head p.1 p.2 rel) in
                let* head := heads_getitem name in
                let* x_deltaT := extern (forward_deltaT head p.1 p.2 rel) in
                ret (PyTuple [x; x_deltaH; x_deltaT; x_ori])) s.
Proof.
  unfold forward_cons_neg, encode_pair, effective_features_only, bind.
  repeat (case_match; simplify_eq/=; try done).
Qed.

Lemma forward_embed_unfold sa sb ga gb rel fo name kw s :
  forward_embed sa sb ga gb rel fo name kw s
  = bind (encode_pair ga gb fo name kw)
      (fun p => ret (PyTuple [p.1; p.2])) s.
Proof.
  unfold forward_embed, encode_pair, effective_features_only, bind.
  repeat (case_match; simplify_eq/=; try done).
Qed.

(** What the shared opening does to the state: the model and the warnings are
    untouched, and the encoder invocations it records are at most two, all
    with the effective [features_only]; when it succeeds they are exactly the
    invocation on the first graph followed by the one on the second. *)
Lemma encode_pair_calls ga gb fo name kw s :
  self (encode_pair ga gb fo name kw s).2 = self s
  /\ warnings (encode_pair ga gb fo name kw s).2 = warnings s
  /\ exists l,
       encoder_calls (encode_pair ga gb fo name kw s).2 = encoder_calls s ++ l
       /\ Forall (fun k : Namespace =>
                    k !! "features_only" = Some (effective_features_only fo name)) l
       /\ length l <= 2
       /\ (is_ok (encode_pair ga gb fo name kw s).1 = true ->
           exists ka kb,
             keyword_arguments ga (effective_features_only fo name) kw = Ok ka
             /\ keyword_arguments gb (effective_features_only fo name) kw = Ok kb
             /\ l = [ka; kb]).
Proof.
  unfold encode_pair, bind, call_encoder.
  set (fo' := effective_features_only fo name).
  destruct (keyword_arguments ga fo' kw) as [ka|e] eqn:Ka.
  2:{ simpl. repeat split. exists []. rewrite app_nil_r. repeat split; auto.
      discriminate. }
  apply keyword_arguments_ok in Ka as Hka. destruct Hka as (_ & _ & _ & Hka).
  destruct (encoder_call (encoder (self s)) ka (world s)) as [[[ea ja]|e] w1].
  2:{ simpl. repeat split. exists [ka]. repeat split; auto. discriminate. }
  cbn [self world encoder_calls warnings].
  destruct (keyword_arguments gb fo' kw) as [kb|e] eqn:Kb.
  2:{ simpl. repeat split. exists [ka]. repeat split; auto. discriminate. }
  apply keyword_arguments_ok in Kb as Hkb. destruct Hkb as (_ & _ & _ & Hkb).
  destruct (encoder_call (encoder (self s)) kb w1) as [[[eb jb]|e] w2].
  2:{ simpl. repeat split. exists [ka; kb]. rewrite <- app_assoc.
      repeat split; auto. discriminate. }
  assert (Hl : exists l : list Namespace,
             (encoder_calls s ++ [ka]) ++ [kb] = encoder_calls s ++ l
             /\ Forall (fun k : Namespace => k !! "features_only" = Some fo') l
             /\ length l <= 2
             /\ exists ka0 kb0, Ok ka = Ok ka0 /\ Ok kb = Ok kb0 /\ l = [ka0; kb0]).
  { exists [ka; kb]. rewrite <- app_assoc. repeat split; eauto. }
  unfold lift, ret.
  destruct (get_cls ea) as [a|e]; destruct (get_cls eb) as [b|e'];
    simpl; (split; [done|]); (split; [done|]);
    destruct Hl as (l & ? & ? & ? & ?); exists l; auto.
Qed.

Lemma encode_pair_self ga gb fo name kw s :
  self (encode_pair ga gb fo name kw s).2 = self s.
Proof. apply encode_pair_calls. Qed.

(** An opening followed by a quiet continuation. *)
Lemma encode_then_quiet (k : pyval F * pyval F -> M St (pyval F))
    ga gb fo name kw :
  (forall p, quiet (k p)) ->
  (forall s, self (bind (encode_pair ga gb fo name kw) k s).2 = self s
             /\ warnings (bind (encode_pair ga gb fo name kw) k s).2 = warnings s)
  /\ records_calls (bind (encode_pair ga gb fo name kw) k) ga gb
       (effective_features_only fo name) kw.
Proof.
  intros Hk. split; intros s; unfold bind;
    destruct (encode_pair_calls ga gb fo name kw s) as (Hself & Hwarn & l & Hl & Hfo & Hlen & Hok);
    destruct (encode_pair ga gb fo name kw s) as [[p|e] s1]; simpl in *;
    try destruct (Hk p s1) as (Hs & Hc & Hw).
  - by rewrite Hs, Hw.
  - done.
  - exists l. rewrite Hc. repeat split; auto.
  - exists l. repeat split; auto; discriminate.
Qed.

Lemma forward_quiet_rest rel name (p : pyval F * pyval F) :
  quiet (let* head := heads_getitem name in
         let* x := extern (head_call head p.1 p.2 rel) in
         ret x : M St (pyval F)).
Proof. auto 10 with quiet. Qed.

Lemma forward_cons_neg_quiet_rest rel name (p : pyval F * pyval F) :
  quiet (let* head := heads_getitem name in
         let* x := extern (head_call head p.1 p.2 rel) in
         let* head := heads_getitem name in
         let* x_ori := extern (forward_NoDelta head p.1 p.2 rel) in
         let* head := heads_getitem name in
         let* x_deltaH := extern (forward_deltaH head p.1 p.2 rel) in
         let* head := heads_getitem name in
         let* x_deltaT := extern (forward_deltaT head p.1 p.2 rel) in
         ret (PyTuple [x; x_deltaH; x_deltaT; x_ori]) : M St (pyval F)).
Proof. auto 20 with quiet. Qed.

(** The forward methods leave the model instance and the warnings alone. *)
Lemma forward_frame sa sb ga gb rel fo name kw s :
  (self (forward sa sb ga gb rel fo name kw s).2 = self s
   /\ warnings (forward sa sb ga gb rel fo name kw s).2 = warnings s)
  /\ (self (forward_cons_neg sa sb ga gb rel fo name kw s).2 = self s
      /\ warnings (forward_cons_neg sa sb ga gb rel fo name kw s).2 = warnings s)
  /\ (self (forward_embed sa sb ga gb rel fo name kw s).2 = self s
      /\ warnings (forward_embed sa sb ga gb rel fo name kw s).2 = warnings s).
Proof.
  rewrite forward_unfold, forward_cons_neg_unfold, forward_embed_unfold.
  split; [|split].
  - apply encode_then_quiet. intros p. apply forward_quiet_rest.
  - apply encode_then_quiet. intros p. apply forward_cons_neg_quiet_rest.
  - apply encode_then_quiet. intros p. apply quiet_ret.
Qed.

Lemma encode_pair_invokes ga gb fo name kw :
  invokes_encoder (encode_pair ga gb fo name kw) ga gb
    (effective_features_only fo name) kw.
Proof.
  intros s. unfold encode_pair, bind, call_encoder.
  set (fo' := effective_features_only fo name). split.
  - intros e He. by rewrite He.
  - intros ka Hka. rewrite Hka.
    split; [by apply keyword_arguments_ok in Hka as (_ & _ & _ & ?)|]. split.
    + intros e w1 Hc. by rewrite Hc.
    + intros [ea ja] w1 Hc. rewrite Hc. cbn [self world encoder_calls warnings].
      split.
      * intros e He. by rewrite He.
      * intros kb Hkb. rewrite Hkb.
        split; [by apply keyword_arguments_ok in Hkb as (_ & _ & _ & ?)|].
        destruct (encoder_call (encoder (self s)) kb w1) as [[[eb jb]|e] w2];
          [|simpl; by rewrite <- app_assoc].
        unfold lift, ret.
        destruct (get_cls ea); destruct (get_cls eb); simpl;
          by rewrite <- app_assoc.
Qed.

(** A quiet continuation adds no encoder invocation. *)
Lemma encode_then_quiet_invokes {A : Type} (k : pyval F * pyval F -> M St A)
    ga gb fo name kw :
  (forall p, quiet (k p)) ->
  invokes_encoder (bind (encode_pair ga gb fo name kw) k) ga gb
    (effective_features_only fo name) kw.
Proof.
  intros Hk.
  assert (Hcalls : forall s,
            encoder_calls (bind (encode_pair ga gb fo name kw) k s).2
            = encoder_calls (encode_pair ga gb fo name kw s).2).
  { intros s. unfold bind.
    destruct (encode_pair ga gb fo name kw s) as [[p|e] s1]; simpl; [|done].
    by destruct (Hk p s1) as (_ & -> & _). }
  intros s. destruct (encode_pair_invokes ga gb fo name kw s) as (Hclash & Hrun).
  cbn [snd] in *. rewrite Hcalls. split; [exact Hclash|].
  intros ka Hka. destruct (Hrun ka Hka) as (Hfo & Hraise & Hret).
  split; [exact Hfo|]. split; [exact Hraise|]. exact Hret.
Qed.

(** C9: in [forward], [forward_cons_neg] and [forward_embed] the value of
    [features_only] that reaches the encoder is [True] as soon as
    [classification_head_name] is not [None], whatever the caller passed, and
    is the caller's value when it is [None].  Whatever the outcome of the
    call, the encoder is invoked on the first graph with that value (unless
    the keyword arguments clash, which raises before the call), and then on
    the second graph with that value if the first invocation returned; the
    method makes no other encoder invocation, and a call that succeeds has
    made exactly these two. *)
Theorem encoder_receives_features_only sa sb ga gb rel fo name kw :
  (forall n, effective_features_only fo (Some n) = PyBool true)
  /\ effective_features_only fo None = fo
  /\ records_calls (forward sa sb ga gb rel fo name kw) ga gb
       (effective_features_only fo name) kw
  /\ records_calls (forward_cons_neg sa sb ga gb rel fo name kw) ga gb
       (effective_features_only fo name) kw
  /\ records_calls (forward_embed sa sb ga gb rel fo name kw) ga gb
       (effective_features_only fo name) kw
  /\ invokes_encoder (forward sa sb ga gb rel fo name kw) ga gb
       (effective_features_only fo name) kw
  /\ invokes_encoder (forward_cons_neg sa sb ga gb rel fo name kw) ga gb
       (effective_features_only fo name) kw
  /\ invokes_encoder (forward_embed sa sb ga gb rel fo name kw) ga gb
       (effective_features_only fo name) kw.
Proof.
  split; [reflexivity|]. split; [reflexivity|].
  split; [|split; [|split; [|split; [|split]]]]; intros s.
  - rewrite forward_unfold. apply encode_then_quiet.
    intros p. apply forward_quiet_rest.
  - rewrite forward_cons_neg_unfold. apply encode_then_quiet.
    intros p. apply forward_cons_neg_quiet_rest.
  - rewrite forward_embed_unfold. apply encode_then_quiet.
    intros p. apply quiet_ret.
  - rewrite forward_unfold. apply encode_then_quiet_invokes.
    intros p. apply forward_quiet_rest.
  - rewrite forward_cons_neg_unfold. apply encode_then_quiet_invokes.
    intros p. apply forward_cons_neg_quiet_rest.
  - rewrite forward_embed_unfold. apply encode_then_quiet_invokes.
    intros p. apply quiet_ret.
Qed.

(** C3, as amended: a call to [forward] under a name that has no head (the
    default [None] included) always fails.  The failure is the lookup error
    [KeyError] on that name whenever the call gets as far as the lookup, i.e.
    whenever the encoder pass and the two summary extractions succeed, which
    is when [forward_embed] on the same arguments returns the two summaries;
    the state is then the one [forward_embed] leaves.  A failure of the
    encoder pass or of a summary extraction comes first and propagates
    instead. *)
Theorem forward_unregistered sa sb ga gb rel fo name kw s :
  (forall n, name = Some n -> classification_heads (self s) !! n = None) ->
  is_ok (forward sa sb ga gb rel fo name kw s).1 = false
  /\ (forall a b s',
        forward_embed sa sb ga gb rel fo name kw s = (Ok (PyTuple [a; b]), s') ->
        forward sa sb ga gb rel fo name kw s = (Err (KeyError name), s'))
  /\ (forall e s',
        forward_embed sa sb ga gb rel fo name kw s = (Err e, s') ->
        forward sa sb ga gb rel fo name kw s = (Err e, s')).
Proof.
  intros Hname. rewrite forward_unfold, forward_embed_unfold. unfold bind.
  pose proof (encode_pair_self ga gb fo name kw s) as Hself.
  destruct (encode_pair ga gb fo name kw s) as [[[a b]|e] s1]; simpl in *.
  - assert (Hget : heads_getitem name s1 = (Err (KeyError name), s1)).
    { unfold heads_getitem. destruct name as [n|]; [|done].
      rewrite Hself, (Hname n eq_refl). done. }
    rewrite Hget. simpl. split; [done|]. split; [|discriminate].
    intros a' b' s' [= <- <- <-]. done.
  - split; [done|]. split; [discriminate|]. intros e' s' [= <- <-]. done.
Qed.

(** C6: applied to a value that is neither [None], nor a tensor, nor a
    tuple, [get_cls] raises [ValueError]; and when either encoder output of a
    forward call is rejected that way, the enclosing [forward],
    [forward_cons_neg] or [forward_embed] call fails with that [ValueError],
    in the state the two encoder invocations left. *)
Theorem get_cls_rejects_unrecognized sa sb ga gb rel fo name kw s s1 s2
    (enc_a enc_b aux_a aux_b : pyval F) :
  call_encoder ga (effective_features_only fo name) kw s = (Ok (enc_a, aux_a), s1) ->
  call_encoder gb (effective_features_only fo name) kw s1 = (Ok (enc_b, aux_b), s2) ->
  unrecognized enc_a \/ (is_ok (get_cls enc_a) = true /\ unrecognized enc_b) ->
  (unrecognized enc_a -> get_cls enc_a = Err ValueError)
  /\ (unrecognized enc_b -> get_cls enc_b = Err ValueError)
  /\ forward sa sb ga gb rel fo name kw s = (Err ValueError, s2)
  /\ forward_cons_neg sa sb ga gb rel fo name kw s = (Err ValueError, s2)
  /\ forward_embed sa sb ga gb rel fo name kw s = (Err ValueError, s2).
Proof.
  intros Ha Hb Hbad.
  assert (Hrej : forall x : pyval F, unrecognized x -> get_cls x = Err ValueError).
  { intros x (? & ? & ?). by apply get_cls_unrecognized. }
  split; [apply Hrej|]. split; [apply Hrej|].
  assert (Hpair : encode_pair ga gb fo name kw s = (Err ValueError, s2)).
  { unfold encode_pair, bind. rewrite Ha, Hb. unfold lift.
    destruct Hbad as [Hu|[Hok Hu]]; apply Hrej in Hu.
    - by rewrite Hu.
    - destruct (get_cls enc_a); [|discriminate]. by rewrite Hu. }
  rewrite forward_unfold, forward_cons_neg_unfold, forward_embed_unfold.
  unfold bind. rewrite Hpair. done.
Qed.

(** C8: a successful [forward_cons_neg] returns a tuple of exactly four
    outputs.  With [a] and [b] the two summaries ([forward_embed] on the same
    arguments returns them) and [h] the head registered under the name, the
    outputs are, in this order: [h] called on [(a, b, net_rel)], which is
    also what the plain [forward] returns; [h.forward_deltaH],
    [h.forward_deltaT] and [h.forward_NoDelta] on the same three arguments.
    The head is called in the order plain, no-delta, delta-H, delta-T. *)
Theorem forward_cons_neg_outputs sa sb ga gb rel fo name kw s s' (r : pyval F) :
  forward_cons_neg sa sb ga gb rel fo name kw s = (Ok r, s') ->
  exists a b s1 n h x x_ori x_deltaH x_deltaT w1 w2 w3,
    r = PyTuple [x; x_deltaH; x_deltaT; x_ori]
    /\ forward_embed sa sb ga gb rel fo name kw s = (Ok (PyTuple [a; b]), s1)
    /\ name = Some n
    /\ classification_heads (self s) !! n = Some h
    /\ head_call h a b rel (world s1) = (Ok x, w1)
    /\ forward_NoDelta h a b rel w1 = (Ok x_ori, w2)
    /\ forward_deltaH h a b rel w2 = (Ok x_deltaH, w3)
    /\ forward_deltaT h a b rel w3 = (Ok x_deltaT, world s')
    /\ (forward sa sb ga gb rel fo name kw s).1 = Ok x
    /\ self s' = self s
    /\ encoder_calls s' = encoder_calls s1
    /\ warnings s' = warnings s.
Proof.
  rewrite forward_cons_neg_unfold, forward_embed_unfold, forward_unfold.
  unfold bind.
  destruct (encode_pair_calls ga gb fo name kw s) as (Hself & Hwarn & _).
  destruct (encode_pair ga gb fo name kw s) as [[[a b]|e] s1]; simpl in *;
    [|discriminate].
  unfold heads_getitem. destruct name as [n|]; [|discriminate].
  rewrite Hself.
  destruct (classification_heads (self s) !! n) as [h|] eqn:Hh; [|discriminate].
  unfold extern. simpl.
  destruct (head_call h a b rel (world s1)) as [[x|e] w1] eqn:E0;
    [|simpl; discriminate].
  simpl. rewrite ?Hself, Hh. simpl.
  destruct (forward_NoDelta h a b rel w1) as [[x_ori|e] w2] eqn:E1;
    [|simpl; discriminate].
  simpl. rewrite ?Hself, Hh. simpl.
  destruct (forward_deltaH h a b rel w2) as [[x_deltaH|e] w3] eqn:E2;
    [|simpl; discriminate].
  simpl. rewrite ?Hself, Hh. simpl.
  destruct (forward_deltaT h a b rel w3) as [[x_deltaT|e] w4] eqn:E3;
    [|simpl; discriminate].
  simpl. intros [= <- <-]. simpl.
  exists a, b, s1, n, h, x, x_ori, x_deltaH, x_deltaT, w1, w2, w3.
  repeat split; done.
Qed.

(** *** [register_classification_head] *)

Lemma register_phases (n : string) (nc idim : option Z) s :
  register_classification_head n nc idim s
  = bind (warn_if_resized n nc idim)
      (fun _ =>
         if decide (n = "bclsmlp") then build_head BinaryClassMLPHead n nc idim
         else if decide (n = "bclsFeatInt")
              then build_head BinaryClassFeatIntegrationHead n nc idim
              else raise (NotImplementedError "No Implemented by DDI")) s.
Proof. reflexivity. Qed.

(** The first phase touches nothing but the warnings. *)
Lemma warn_if_resized_frame (n : string) (nc idim : option Z) s :
  self (warn_if_resized n nc idim s).2 = self s
  /\ world (warn_if_resized n nc idim s).2 = world s
  /\ encoder_calls (warn_if_resized n nc idim s).2 = encoder_calls s.
Proof.
  unfold warn_if_resized, bind, gets, lift, ret, logger_warning.
  repeat (case_match; simplify_eq/=); done.
Qed.

(** Without a head under [n] the first phase does nothing at all. *)
Lemma warn_if_resized_absent (n : string) (nc idim : option Z) s :
  classification_heads (self s) !! n = None ->
  warn_if_resized n nc idim s = (Ok tt, s).
Proof. intros H. unfold warn_if_resized, bind, gets. simpl. by rewrite H. Qed.

(** With a head under [n] whose sizes can be read, the first phase succeeds
    and logs one warning exactly when a requested size differs. *)
Lemma warn_if_resized_present (n : string) (nc idim : option Z) s
    (prev : Head) (p_nc p_id : Z) :
  classification_heads (self s) !! n = Some prev ->
  out_proj_out_features prev = Ok p_nc ->
  dense_out_features prev = Ok p_id ->
  warn_if_resized n nc idim s
  = (Ok tt,
     mkState (self s) (world s) (encoder_calls s)
       (warnings s ++
          if differs nc p_nc || differs idim p_id
          then [mkWarning n nc p_nc idim p_id] else [])).
Proof.
  intros H Hnc Hid. unfold warn_if_resized, bind, gets, lift. simpl.
  rewrite H, Hnc, Hid. simpl.
  destruct (differs nc p_nc || differs idim p_id); simpl; [done|].
  rewrite app_nil_r. by destruct s.
Qed.

(** The second phase either fails and changes at most the collaborators'
    state, or succeeds and stores the new head under [n]. *)
Lemma build_head_effect cls (n : string) (nc idim : option Z) s :
  args (self (build_head cls n nc idim s).2) = args (self s)
  /\ encoder (self (build_head cls n nc idim s).2) = encoder (self s)
  /\ encoder_calls (build_head cls n nc idim s).2 = encoder_calls s
  /\ warnings (build_head cls n nc idim s).2 = warnings s
  /\ ((is_ok (build_head cls n nc idim s).1 = false
       /\ classification_heads (self (build_head cls n nc idim s).2)
          = classification_heads (self s))
      \/ (is_ok (build_head cls n nc idim s).1 = true
          /\ exists h,
               classification_heads (self (build_head cls n nc idim s).2)
               = <[n := h]> (classification_heads (self s)))).
Proof.
  unfold build_head, bind, gets, ret, self_args, heads_setitem, extern.
  repeat (case_match; simplify_eq/=); eauto 10.
Qed.

(** What a registration call can do to the state, whatever its outcome: the
    configuration, the encoder and the log of encoder invocations are as
    before, and the head mapping is either as before or has gained or
    replaced the entry under [n], which happens exactly when the call
    succeeds and only for a supported [n]. *)
Lemma register_effect (n : string) (nc idim : option Z) s :
  args (self (register_classification_head n nc idim s).2) = args (self s)
  /\ encoder (self (register_classification_head n nc idim s).2) = encoder (self s)
  /\ encoder_calls (register_classification_head n nc idim s).2 = encoder_calls s
  /\ ((is_ok (register_classification_head n nc idim s).1 = false
       /\ classification_heads (self (register_classification_head n nc idim s).2)
          = classification_heads (self s))
      \/ (is_ok (register_classification_head n nc idim s).1 = true
          /\ supported n
          /\ exists h,
               classification_heads (self (register_classification_head n nc idim s).2)
               = <[n := h]> (classification_heads (self s)))).
Proof.
  rewrite register_phases. unfold bind.
  destruct (warn_if_resized_frame n nc idim s) as (Hself & _ & Hcalls).
  destruct (warn_if_resized n nc idim s) as [[[]|e] s1]; simpl in *.
  2:{ rewrite Hself, Hcalls. repeat split. left. done. }
  assert (Hbuild : forall cls, supported n ->
    args (self (build_head cls n nc idim s1).2) = args (self s)
    /\ encoder (self (build_head cls n nc idim s1).2) = encoder (self s)
    /\ encoder_calls (build_head cls n nc idim s1).2 = encoder_calls s
    /\ ((is_ok (build_head cls n nc idim s1).1 = false
         /\ classification_heads (self (build_head cls n nc idim s1).2)
            = classification_heads (self s))
        \/ (is_ok (build_head cls n nc idim s1).1 = true
            /\ supported n
            /\ exists h,
                 classification_heads (self (build_head cls n nc idim s1).2)
                 = <[n := h]> (classification_heads (self s))))).
  { intros cls Hsup.
    destruct (build_head_effect cls n nc idim s1) as (-> & -> & -> & _ & Hheads).
    rewrite Hself, Hcalls. repeat split.
    destruct Hheads as [[? ->]|[? [h ->]]]; rewrite Hself; eauto. }
  repeat case_decide; [apply Hbuild; unfold supported; auto ..|].
  unfold raise. simpl. rewrite Hself, Hcalls. repeat split. left. done.
Qed.

(** Every head of a reachable state sits under a supported name: the mapping
    starts empty and only a successful registration adds to it. *)
Lemma reachable_heads_supported s :
  reachable s ->
  forall n h, classification_heads (self s) !! n = Some h -> supported n.
Proof.
  induction 1 as [a enc w calls warns|c s Hs IH]; intros n h.
  - simpl. by rewrite lookup_empty.
  - destruct c as [sa sb ga gb rel fo name kw|sa sb ga gb rel fo name kw
                  |sa sb ga gb rel fo name kw|n' nc idim|]; simpl.
    + destruct (forward_frame sa sb ga gb rel fo name kw s) as ((-> & _) & _).
      apply IH.
    + destruct (forward_frame sa sb ga gb rel fo name kw s) as (_ & (-> & _) & _).
      apply IH.
    + destruct (forward_frame sa sb ga gb rel fo name kw s) as (_ & _ & (-> & _)).
      apply IH.
    + destruct (register_effect n' nc idim s) as (_ & _ & _ & [[_ ->]|(_ & Hsup & h' & ->)]).
      * apply IH.
      * destruct (decide (n' = n)) as [<-|Hne]; [done|].
        rewrite lookup_insert_ne by done. apply IH.
    + apply IH.
Qed.

(** C4: registering under a name outside the closed set
    {bclsmlp, bclsFeatInt} never succeeds and leaves the head mapping, the
    configuration and the encoder exactly as they were; on every state a
    model instance can reach through its methods the call fails with the
    not-implemented error and leaves the whole state untouched, no warning
    included. *)
Theorem register_unsupported (n : string) (nc idim : option Z) s :
  ~ supported n ->
  is_ok (register_classification_head n nc idim s).1 = false
  /\ self (register_classification_head n nc idim s).2 = self s
  /\ (reachable s ->
      register_classification_head n nc idim s
      = (Err (NotImplementedError "No Implemented by DDI"), s)).
Proof.
  intros Hn.
  destruct (register_effect n nc idim s)
    as (Hargs & Henc & _ & [[Hfail Hheads]|(_ & Hsup & _)]); [|done].
  split; [exact Hfail|]. split.
  - destruct (self (register_classification_head n nc idim s).2) as [a e hs].
    destruct (self s) as [a0 e0 hs0]. simpl in *. congruence.
  - intros Hreach.
    assert (Habsent : classification_heads (self s) !! n = None).
    { destruct (classification_heads (self s) !! n) as [h|] eqn:E; [|done].
      exfalso. apply Hn. by apply (reachable_heads_supported s Hreach n h). }
    rewrite register_phases. unfold bind.
    rewrite (warn_if_resized_absent n nc idim s Habsent).
    unfold supported in Hn. repeat case_decide; try done; tauto.
Qed.

(** C10: a successful registration (the name is then [bclsmlp] or
    [bclsFeatInt]) changes the head mapping under that name only: the head
    under every other name, the configuration and the encoder of the model
    are what they were, and no encoder invocation was made. *)
Theorem register_frame (n : string) (nc idim : option Z) s s' :
  supported n ->
  register_classification_head n nc idim s = (Ok tt, s') ->
  (forall m, m <> n ->
     classification_heads (self s') !! m = classification_heads (self s) !! m)
  /\ (exists h, classification_heads (self s') = <[n := h]> (classification_heads (self s)))
  /\ args (self s') = args (self s)
  /\ encoder (self s') = encoder (self s)
  /\ encoder_calls s' = encoder_calls s.
Proof.
  intros _ Hreg.
  destruct (register_effect n nc idim s) as (Hargs & Henc & Hcalls & Hheads).
  rewrite Hreg in *. simpl in *.
  destruct Hheads as [[? _]|(_ & _ & h & Hh)]; [done|].
  split; [|eauto]. intros m Hm. rewrite Hh. by apply lookup_insert_ne.
Qed.

(** C5, as amended: registering a supported name that already has a head is
    not an error in itself.  Provided the collaborators do their part (the sizes of the prior
    head can be read, the configuration holds the three attributes the
    construction reads, and the head class returns a head [h]), the call
    succeeds, the mapping holds [h] under the name in place of the prior head
    and is otherwise unchanged, and one warning is logged exactly when the
    requested [num_classes] or [inner_dim] differs from the prior head's
    sizing. *)
Theorem register_again_replaces (n : string) (nc idim : option Z) s
    (prev h : Head) (p_nc p_id : Z) (embed activation dropout : pyval F) (w' : World) :
  supported n ->
  classification_heads (self s) !! n = Some prev ->
  out_proj_out_features prev = Ok p_nc ->
  dense_out_features prev = Ok p_id ->
  args (self s) !! "gnn_embed_dim" = Some embed ->
  args (self s) !! "pooler_activation_fn" = Some activation ->
  args (self s) !! "pooler_dropout" = Some dropout ->
  head_class n
    (default embed (encoder_output_features (encoder (self s))))
    (if truthy idim then opt_int idim else embed)
    (opt_int nc) activation dropout (world s) = (Ok h, w') ->
  register_classification_head n nc idim s
  = (Ok tt,
     mkState
       (mkGCNModel (args (self s)) (encoder (self s))
          (<[n := h]> (classification_heads (self s))))
       w' (encoder_calls s)
       (warnings s ++
          if differs nc p_nc || differs idim p_id
          then [mkWarning n nc p_nc idim p_id] else [])).
Proof.
  intros Hsup Hprev Hnc Hid Hembed Hact Hdrop Hcls.
  rewrite register_phases. unfold bind.
  rewrite (warn_if_resized_present n nc idim s prev p_nc p_id Hprev Hnc Hid).
  unfold head_class in Hcls.
  assert (Hbuild : forall cls,
    cls (default embed (encoder_output_features (encoder (self s))))
      (if truthy idim then opt_int idim else embed)
      (opt_int nc) activation dropout (world s) = (Ok h, w') ->
    forall warns,
    build_head cls n nc idim (mkState (self s) (world s) (encoder_calls s) warns)
    = (Ok tt,
       mkState
         (mkGCNModel (args (self s)) (encoder (self s))
            (<[n := h]> (classification_heads (self s))))
         w' (encoder_calls s) warns)).
  { intros cls Hc warns.
    unfold build_head, bind, self_args, getattr, gets, ret, extern, heads_setitem.
    simpl. rewrite Hembed. simpl.
    destruct (truthy idim); simpl; rewrite ?Hembed, Hact; simpl;
      rewrite Hdrop; simpl; rewrite Hc; done. }
  destruct Hsup as [->| ->]; repeat case_decide; try done; by apply Hbuild.
Qed.

End Properties.

(** ** The properties on concrete runs *)

Lemma encoder_receives_features_only_witness :
  encoder_calls
    (forward PyNone PyNone (Toy.toy_graph 1) (Toy.toy_graph 2) (PyInt 3)
       (PyBool false) (Some "bclsmlp") ∅ Toy.toy_registered).2
  = [Toy.toy_graph 1 ∪ <["features_only" := PyBool true]> ∅;
     Toy.toy_graph 2 ∪ <["features_only" := PyBool true]> ∅]
  /\ encoder_calls
       (forward_cons_neg PyNone PyNone (Toy.toy_graph 1) (Toy.toy_graph 2) (PyInt 3)
          (PyBool false) (Some "nohead") ∅ (Toy.toy_state (PyList []))).2
     = [Toy.toy_graph 1 ∪ <["features_only" := PyBool true]> ∅;
        Toy.toy_graph 2 ∪ <["features_only" := PyBool true]> ∅]
  /\ encoder_calls
       (forward_embed PyNone PyNone (Toy.toy_graph 1) (Toy.toy_graph 2) (PyInt 3)
          (PyStr "caller") None ∅ (Toy.toy_state (PyTensor Toy.toy_tensor))).2
     = [Toy.toy_graph 1 ∪ <["features_only" := PyStr "caller"]> ∅;
        Toy.toy_graph 2 ∪ <["features_only" := PyStr "caller"]> ∅]
  /\ encoder_calls
       (forward_embed PyNone PyNone Flaky.failing_graph (Toy.toy_graph 2) (PyInt 3)
          (PyBool false) (Some "bclsmlp") ∅ (Flaky.flaky_state PyNone)).2
     = [Flaky.failing_graph ∪ <["features_only" := PyBool true]> ∅].
Proof.
  split; [|split; [|split]].
  - destruct (encoder_receives_features_only (Collaborators0:=Toy.toy_collaborators)
                PyNone PyNone (Toy.toy_graph 1) (Toy.toy_graph 2) (PyInt 3)
                (PyBool false) (Some "bclsmlp") ∅)
      as (_ & _ & _ & _ & _ & Hinv & _ & _).
    destruct (Hinv Toy.toy_registered) as (_ & Hrun).
    assert (Hka : keyword_arguments (Toy.toy_graph 1) (PyBool true) (∅ : gmap string (pyval Z))
                  = Ok ((Toy.toy_graph 1) ∪ <["features_only" := PyBool true]> ∅))
      by (vm_compute; reflexivity).
    destruct (Hrun _ Hka) as (_ & Hraise & Hret).
    assert (Hc : encoder_call (encoder (self Toy.toy_registered))
                   ((Toy.toy_graph 1) ∪ <["features_only" := PyBool true]> ∅) (world Toy.toy_registered)
                 = (Ok (PyTensor Toy.toy_tensor, PyNone), 2))
      by (vm_compute; reflexivity).
    destruct (Hret _ _ Hc) as (_ & Hsecond).
    assert (Hkb : keyword_arguments (Toy.toy_graph 2) (PyBool true) (∅ : gmap string (pyval Z))
                  = Ok ((Toy.toy_graph 2) ∪ <["features_only" := PyBool true]> ∅))
      by (vm_compute; reflexivity).
    destruct (Hsecond _ Hkb) as (_ & Hcalls).
    rewrite Hcalls. vm_compute. reflexivity.
  - destruct (encoder_receives_features_only (Collaborators0:=Toy.toy_collaborators)
                PyNone PyNone (Toy.toy_graph 1) (Toy.toy_graph 2) (PyInt 3)
                (PyBool false) (Some "nohead") ∅)
      as (_ & _ & _ & _ & _ & _ & Hinv & _).
    destruct (Hinv (Toy.toy_state (PyList []))) as (_ & Hrun).
    assert (Hka : keyword_arguments (Toy.toy_graph 1) (PyBool true) (∅ : gmap string (pyval Z))
                  = Ok ((Toy.toy_graph 1) ∪ <["features_only" := PyBool true]> ∅))
      by (vm_compute; reflexivity).
    destruct (Hrun _ Hka) as (_ & Hraise & Hret).
    assert (Hc : encoder_call (encoder (self (Toy.toy_state (PyList []))))
                   ((Toy.toy_graph 1) ∪ <["features_only" := PyBool true]> ∅) (world (Toy.toy_state (PyList [])))
                 = (Ok (PyList [], PyNone), 1))
      by (vm_compute; reflexivity).
    destruct (Hret _ _ Hc) as (_ & Hsecond).
    assert (Hkb : keyword_arguments (Toy.toy_graph 2) (PyBool true) (∅ : gmap string (pyval Z))
                  = Ok ((Toy.toy_graph 2) ∪ <["features_only" := PyBool true]> ∅))
      by (vm_compute; reflexivity).
    destruct (Hsecond _ Hkb) as (_ & Hcalls).
    rewrite Hcalls. vm_compute. reflexivity.
  - destruct (encoder_receives_features_only (Collaborators0:=Toy.toy_collaborators)
                PyNone PyNone (Toy.toy_graph 1) (Toy.toy_graph 2) (PyInt 3)
                (PyStr "caller") None ∅)
      as (_ & _ & _ & _ & _ & _ & _ & Hinv).
    destruct (Hinv (Toy.toy_state (PyTensor Toy.toy_tensor))) as (_ & Hrun).
    assert (Hka : keyword_arguments (Toy.toy_graph 1) (PyStr "caller") (∅ : gmap string (pyval Z))
                  = Ok ((Toy.toy_graph 1) ∪ <["features_only" := PyStr "caller"]> ∅))
      by (vm_compute; reflexivity).
    destruct (Hrun _ Hka) as (_ & Hraise & Hret).
    assert (Hc : encoder_call (encoder (self (Toy.toy_state (PyTensor Toy.toy_tensor))))
                   ((Toy.toy_graph 1) ∪ <["features_only" := PyStr "caller"]> ∅) (world (Toy.toy_state (PyTensor Toy.toy_tensor)))
                 = (Ok (PyTensor Toy.toy_tensor, PyNone), 1))
      by (vm_compute; reflexivity).
    destruct (Hret _ _ Hc) as (_ & Hsecond).
    assert (Hkb : keyword_arguments (Toy.toy_graph 2) (PyStr "caller") (∅ : gmap string (pyval Z))
                  = Ok ((Toy.toy_graph 2) ∪ <["features_only" := PyStr "caller"]> ∅))
      by (vm_compute; reflexivity).
    destruct (Hsecond _ Hkb) as (_ & Hcalls).
    rewrite Hcalls. vm_compute. reflexivity.
  - destruct (encoder_receives_features_only (Collaborators0:=Flaky.flaky_collaborators)
                PyNone PyNone Flaky.failing_graph (Toy.toy_graph 2) (PyInt 3)
                (PyBool false) (Some "bclsmlp") ∅)
      as (_ & _ & _ & _ & _ & _ & _ & Hinv).
    destruct (Hinv (Flaky.flaky_state PyNone)) as (_ & Hrun).
    assert (Hka : keyword_arguments Flaky.failing_graph (PyBool true) (∅ : gmap string (pyval Z))
                  = Ok (Flaky.failing_graph ∪ <["features_only" := PyBool true]> ∅))
      by (vm_compute; reflexivity).
    destruct (Hrun _ Hka) as (_ & Hraise & Hret).
    assert (Hc : encoder_call (encoder (self (Flaky.flaky_state PyNone)))
                   (Flaky.failing_graph ∪ <["features_only" := PyBool true]> ∅) (world (Flaky.flaky_state PyNone))
                 = (Err (Raised "encoder"), 1))
      by (vm_compute; reflexivity).
    rewrite (Hraise _ _ Hc). vm_compute. reflexivity.
Defined.

Lemma forward_unregistered_witness :
  (forward PyNone PyNone (Toy.toy_graph 1) (Toy.toy_graph 2) (PyInt 3)
     (PyBool false) (Some "bclsFeatInt") ∅ Toy.toy_registered).1
  = Err (KeyError (Some "bclsFeatInt")).
Proof.
  destruct (forward_unregistered (Collaborators0:=Toy.toy_collaborators)
              PyNone PyNone (Toy.toy_graph 1) (Toy.toy_graph 2) (PyInt 3)
              (PyBool false) (Some "bclsFeatInt") ∅ Toy.toy_registered)
    as (_ & Hkey & _).
  - intros n [= <-]. vm_compute. reflexivity.
  - erewrite Hkey; [reflexivity|]. vm_compute. reflexivity.
Defined.

(** C3 as stated fails when the encoder returns something [get_cls] does not
    recognize, here a string: no head is registered under [bclsmlp], yet the
    call fails with [ValueError], raised before the head is looked up. *)
Lemma forward_unregistered_counterexample :
  classification_heads (self (Toy.toy_state (PyStr "x"))) !! "bclsmlp" = None
  /\ (forward PyNone PyNone (Toy.toy_graph 1) (Toy.toy_graph 2) (PyInt 3)
        (PyBool false) (Some "bclsmlp") ∅ (Toy.toy_state (PyStr "x"))).1
     = Err ValueError
  /\ (forward PyNone PyNone (Toy.toy_graph 1) (Toy.toy_graph 2) (PyInt 3)
        (PyBool false) (Some "bclsmlp") ∅ (Toy.toy_state (PyStr "x"))).1
     <> Err (KeyError (Some "bclsmlp")).
Proof. split; [reflexivity|]. split; [by vm_compute|]. by vm_compute. Qed.

Lemma get_cls_rejects_unrecognized_witness :
  forward PyNone PyNone (Toy.toy_graph 1) (Toy.toy_graph 2) (PyInt 3)
    (PyBool false) (Some "bclsmlp") ∅ (Toy.toy_state (PyList []))
  = (Err ValueError,
     mkState (self (Toy.toy_state (PyList []))) 2
       [<["features_only" := PyBool true]> (Toy.toy_graph 1);
        <["features_only" := PyBool true]> (Toy.toy_graph 2)] []).
Proof.
  refine (proj1 (proj2 (proj2
    (get_cls_rejects_unrecognized (Collaborators0:=Toy.toy_collaborators)
       PyNone PyNone (Toy.toy_graph 1) (Toy.toy_graph 2) (PyInt 3)
       (PyBool false) (Some "bclsmlp") ∅ (Toy.toy_state (PyList []))
       (mkState (self (Toy.toy_state (PyList []))) 1
          [<["features_only" := PyBool true]> (Toy.toy_graph 1)] [])
       _ (PyList []) (PyList []) PyNone PyNone _ _ _)))).
  - vm_compute. reflexivity.
  - vm_compute. reflexivity.
  - left. repeat split.
Defined.

Lemma forward_cons_neg_outputs_witness :
  exists x x_deltaH x_deltaT x_ori,
    (forward_cons_neg PyNone PyNone (Toy.toy_graph 1) (Toy.toy_graph 2) (PyInt 3)
       (PyBool false) (Some "bclsmlp") ∅ Toy.toy_registered).1
    = Ok (PyTuple [x; x_deltaH; x_deltaT; x_ori])
    /\ (forward PyNone PyNone (Toy.toy_graph 1) (Toy.toy_graph 2) (PyInt 3)
          (PyBool false) (Some "bclsmlp") ∅ Toy.toy_registered).1 = Ok x.
Proof.
  destruct (forward_cons_neg PyNone PyNone (Toy.toy_graph 1) (Toy.toy_graph 2)
              (PyInt 3) (PyBool false) (Some "bclsmlp") ∅ Toy.toy_registered)
    as [[r|e] s'] eqn:E.
  - destruct (forward_cons_neg_outputs (Collaborators0:=Toy.toy_collaborators)
                _ _ _ _ _ _ _ _ _ _ _ E)
      as (a & b & s1 & n & h & x & x_ori & x_deltaH & x_deltaT & w1 & w2 & w3
          & Hr & _ & _ & _ & _ & _ & _ & _ & Hfwd & _).
    exists x, x_deltaH, x_deltaT, x_ori. split; [|exact Hfwd].
    simpl. rewrite Hr. reflexivity.
  - vm_compute in E. discriminate E.
Defined.

Lemma register_unsupported_witness :
  register_classification_head "unknown" (Some 2%Z) None Toy.toy_registered
  = (Err (NotImplementedError "No Implemented by DDI"), Toy.toy_registered).
Proof.
  destruct (register_unsupported (Collaborators0:=Toy.toy_collaborators)
              "unknown" (Some 2%Z) None Toy.toy_registered)
    as (_ & _ & Hreach).
  - intros [H|H]; discriminate H.
  - apply Hreach.
    exact (reachable_step (RegisterClassificationHead "bclsmlp" (Some 2%Z) None) _
             (reachable_fresh Toy.toy_args
                (Toy.mkToyEncoder (PyTensor Toy.toy_tensor) None) 0 [] [])).
Defined.

Lemma register_frame_witness :
  classification_heads
    (self (register_classification_head "bclsFeatInt" (Some 3%Z) (Some 16%Z)
             Toy.toy_registered).2) !! "bclsmlp"
  = classification_heads (self Toy.toy_registered) !! "bclsmlp"
  /\ args (self (register_classification_head "bclsFeatInt" (Some 3%Z) (Some 16%Z)
                  Toy.toy_registered).2)
     = args (self Toy.toy_registered).
Proof.
  destruct (register_frame (Collaborators0:=Toy.toy_collaborators)
              "bclsFeatInt" (Some 3%Z) (Some 16%Z) Toy.toy_registered
              (register_classification_head "bclsFeatInt" (Some 3%Z) (Some 16%Z)
                 Toy.toy_registered).2)
    as (Hother & _ & Hargs & _).
  - right. reflexivity.
  - vm_compute. reflexivity.
  - split; [apply Hother; discriminate|exact Hargs].
Defined.

Lemma register_again_replaces_witness :
  register_classification_head "bclsmlp" (Some 3%Z) None Toy.toy_registered
  = (Ok tt,
     mkState
       (mkGCNModel (args (self Toy.toy_registered))
          (encoder (self Toy.toy_registered))
          (<["bclsmlp" :=
               Toy.mkToyHead "BinaryClassMLPHead" (PyInt 384) (PyInt 384) (PyInt 3)
                 (PyStr "tanh") (PyInt 0)]>
             (classification_heads (self Toy.toy_registered))))
       2 [] [mkWarning "bclsmlp" (Some 3%Z) 2 None 384]).
Proof.
  refine (register_again_replaces (Collaborators0:=Toy.toy_collaborators)
            "bclsmlp" (Some 3%Z) None Toy.toy_registered
            (Toy.mkToyHead "BinaryClassMLPHead" (PyInt 384) (PyInt 384) (PyInt 2)
               (PyStr "tanh") (PyInt 0))
            _ 2%Z 384%Z (PyInt 384) (PyStr "tanh") (PyInt 0) 2 _ _ _ _ _ _ _ _).
  - left. reflexivity.
  - vm_compute. reflexivity.
  - reflexivity.
  - reflexivity.
  - vm_compute. reflexivity.
  - vm_compute. reflexivity.
  - vm_compute. reflexivity.
  - vm_compute. reflexivity.
Defined.

(** C5 as stated fails when the construction of the new head fails: on a
    model that holds a head under [bclsmlp], registering [bclsmlp] again
    without [num_classes] reaches the head constructor, which cannot size a
    layer by [None] and raises [TypeError]; the call fails, after the
    warning, and the prior head stays. *)
Lemma register_again_counterexample :
  supported "bclsmlp"
  /\ classification_heads (self Toy.toy_registered) !! "bclsmlp"
     = Some (Toy.mkToyHead "BinaryClassMLPHead" (PyInt 384) (PyInt 384) (PyInt 2)
               (PyStr "tanh") (PyInt 0))
  /\ register_classification_head "bclsmlp" None None Toy.toy_registered
     = (Err TypeError,
        mkState (self Toy.toy_registered) 1 []
          [mkWarning "bclsmlp" None 2 None 384])
  /\ is_ok (register_classification_head "bclsmlp" None None Toy.toy_registered).1
     = false.
Proof.
  split; [by left|]. split; [by vm_compute|]. split; by vm_compute.
Qed.

(** * Further properties of the code *)

(** ** Summary extraction on tensors *)

Lemma offset_unravel (sh : list nat) (o : nat) :
  o < numel sh -> offset sh (unravel sh o) = Some o.
Proof.
  revert o. induction sh as [|d sh IH]; intros o Ho.
  - simpl in *. f_equal. lia.
  - rewrite numel_cons in Ho. simpl unravel. rewrite offset_cons.
    assert (Hn : 0 < numel sh) by (destruct (numel sh); [lia|lia]).
    assert (Hq : o / numel sh < d).
    { apply Nat.Div0.div_lt_upper_bound. lia. }
    assert (Hr : o mod numel sh < numel sh) by (apply Nat.mod_upper_bound; lia).
    destruct (decide (o / numel sh < d)); [|lia].
    rewrite (IH _ Hr). simpl. f_equal.
    pose proof (Nat.div_mod_eq o (numel sh)). lia.
Qed.

(** A well-formed tensor is determined by its shape and its elements. *)
Lemma tensor_data_ext {F : Type} (t1 t2 : Tensor F) :
  shape t1 = shape t2 -> tensor_wf t1 -> tensor_wf t2 ->
  (forall idx, tensor_get t1 idx = tensor_get t2 idx) ->
  data t1 = data t2.
Proof.
  intros Hsh Hwf1 Hwf2 Hget. unfold tensor_wf in *. apply list_eq. intros o.
  destruct (decide (o < numel (shape t1))) as [Ho|Ho].
  - specialize (Hget (unravel (shape t1) o)). unfold tensor_get in Hget.
    rewrite <- Hsh in Hget. by rewrite (offset_unravel _ _ Ho) in Hget.
  - rewrite !lookup_ge_None_2; [done| |]; [rewrite Hwf2, <- Hsh|rewrite Hwf1]; lia.
Qed.

Lemma select_last_err {F : Type} (t : Tensor F) (e : exn) :
  select_last t = Err e -> e = IndexError.
Proof.
  unfold select_last. destruct (shape t) as [|d0 [|[|d1] [|d2 rest]]];
    intros [= <-]; reflexivity.
Qed.

Lemma select_last_ok {F : Type} (t : Tensor F) :
  is_ok (select_last t) = true <->
  exists d0 d1 d2 rest, shape t = d0 :: S d1 :: d2 :: rest.
Proof.
  unfold select_last. split.
  - destruct (shape t) as [|d0 [|[|d1] [|d2 rest]]]; try discriminate. eauto.
  - intros (d0 & d1 & d2 & rest & ->). reflexivity.
Qed.

(** X1: [get_cls] succeeds exactly on [None], on a tensor of rank at least 3
    whose dimension 1 is not empty, and on a non-empty tuple; it raises
    [ValueError] exactly on the values that are none of [None], tensor and
    tuple, and the only other exception it raises is [IndexError]. *)
Theorem get_cls_domain (F : Type) (x : pyval F) :
  (is_ok (get_cls x) = true <->
     x = PyNone
     \/ (exists t d0 d1 d2 rest,
           x = PyTensor t /\ shape t = d0 :: S d1 :: d2 :: rest)
     \/ (exists first rest, x = PyTuple (first :: rest)))
  /\ (get_cls x = Err ValueError <-> unrecognized x)
  /\ (forall e, get_cls x = Err e -> e = ValueError \/ e = IndexError).
Proof.
  split; [|split].
  - split.
    + destruct x as [| | | | |t|[|first rest]|]; simpl; try discriminate; eauto.
      unfold mapR. destruct (select_last t) eqn:E; [|discriminate]. intros _.
      assert (Hok : is_ok (select_last t) = true) by (by rewrite E).
      apply select_last_ok in Hok as (d0 & d1 & d2 & rest & Hsh).
      right. left. exists t, d0, d1, d2, rest. done.
    + intros [->|[(t & d0 & d1 & d2 & rest & -> & Hsh)|(first & rest & ->)]];
        [done| |done].
      simpl. unfold mapR.
      assert (Hok : is_ok (select_last t) = true) by (apply select_last_ok; eauto).
      by destruct (select_last t).
  - unfold unrecognized. split.
    + destruct x as [| | | | |t|[|first rest]|]; simpl; try done.
      unfold mapR. destruct (select_last t) eqn:E; [discriminate|].
      apply select_last_err in E as ->. discriminate.
    + intros (H1 & H2 & H3). by apply get_cls_unrecognized.
  - intros e. destruct x as [| | | | |t|[|first rest]|]; simpl;
      try (intros [= <-]; auto; fail); try discriminate.
    unfold mapR. destruct (select_last t) eqn:E; [discriminate|].
    apply select_last_err in E as ->. intros [= <-]. auto.
Qed.

(** X2: summary extraction from a tensor is shape-reducing: the summary is a
    tensor with dimension 1 removed, so the rank drops by exactly one and
    the element count is divided by the length of dimension 1; a well-formed
    input gives a well-formed summary. *)
Theorem get_cls_shape_reducing (F : Type) (t : Tensor F) (y : pyval F) :
  get_cls (PyTensor t) = Ok y ->
  exists t' d0 d1 d2 rest,
    y = PyTensor t'
    /\ shape t = d0 :: d1 :: d2 :: rest
    /\ shape t' = d0 :: d2 :: rest
    /\ 0 < d1
    /\ length (shape t) = S (length (shape t'))
    /\ numel (shape t) = d1 * numel (shape t')
    /\ (tensor_wf t -> tensor_wf t').
Proof.
  simpl. unfold mapR. destruct (select_last t) as [t'|e] eqn:E; [|discriminate].
  intros [= <-].
  assert (Hok : is_ok (select_last t) = true) by (by rewrite E).
  apply select_last_ok in Hok as (d0 & d1 & d2 & rest & Hsh).
  destruct (select_last_spec t d0 (S d1) d2 rest Hsh ltac:(lia))
    as (t'' & E' & Hsh' & Hwf).
  rewrite E in E'. injection E' as <-.
  exists t', d0, (S d1), d2, rest. rewrite Hsh, Hsh'.
  repeat split; try lia.
  - rewrite !numel_cons. lia.
  - intros H. by apply Hwf.
Qed.

Lemma get_cls_shape_reducing_witness :
  exists t', get_cls (PyTensor Toy.toy_tensor) = Ok (PyTensor t')
    /\ shape t' = [2; 3] /\ tensor_wf t'.
Proof.
  destruct (get_cls_shape_reducing Z Toy.toy_tensor
              (PyTensor (mkTensor [2; 3] [4; 5; 6; 10; 11; 12]%Z)) eq_refl)
    as (t' & d0 & d1 & d2 & rest & Hy & Hsh & Hsh' & _ & _ & _ & Hwf).
  exists t'. injection Hy as <-. repeat split.
Defined.

(** X3: the summary of a tensor depends on its last-position elements only:
    two well-formed tensors of the same shape that agree at every index whose
    dimension-1 component is the last position have the same summary,
    whatever they hold elsewhere. *)
Theorem get_cls_ignores_other_positions (F : Type) (t1 t2 : Tensor F)
    (d0 d1 d2 : nat) (rest : list nat) :
  shape t1 = d0 :: d1 :: d2 :: rest ->
  shape t2 = d0 :: d1 :: d2 :: rest ->
  tensor_wf t1 -> tensor_wf t2 ->
  (forall i idx,
     tensor_get t1 (i :: d1 - 1 :: idx) = tensor_get t2 (i :: d1 - 1 :: idx)) ->
  get_cls (PyTensor t1) = get_cls (PyTensor t2).
Proof.
  intros Hsh1 Hsh2 Hwf1 Hwf2 Hagree. simpl.
  destruct d1 as [|last].
  { unfold select_last. by rewrite Hsh1, Hsh2. }
  destruct (select_last_spec t1 d0 (S last) d2 rest Hsh1 ltac:(lia))
    as (t1' & -> & Hsh1' & H1).
  destruct (select_last_spec t2 d0 (S last) d2 rest Hsh2 ltac:(lia))
    as (t2' & -> & Hsh2' & H2).
  destruct (H1 Hwf1) as (Hwf1' & Hget1). destruct (H2 Hwf2) as (Hwf2' & Hget2).
  simpl. do 2 f_equal.
  assert (Hdata : data t1' = data t2').
  { apply tensor_data_ext; [congruence|done|done|].
    intros [|i idx].
    - unfold tensor_get. by rewrite Hsh1', Hsh2'.
    - by rewrite Hget1, Hget2. }
  destruct t1', t2'. simpl in *. congruence.
Qed.

Lemma get_cls_ignores_other_positions_witness :
  get_cls (PyTensor Toy.toy_tensor)
  = get_cls (PyTensor (mkTensor [2; 2; 3] [0; 0; 0; 4; 5; 6; 0; 0; 0; 10; 11; 12]%Z)).
Proof.
  apply (get_cls_ignores_other_positions Z Toy.toy_tensor
           (mkTensor [2; 2; 3] [0; 0; 0; 4; 5; 6; 0; 0; 0; 10; 11; 12]%Z) 2 2 3 []);
    try reflexivity.
  intros i idx. unfold tensor_get. simpl shape. rewrite !offset_cons.
  destruct (decide (i < 2)) as [Hi|]; [|reflexivity].
  destruct (decide (2 - 1 < 2)); [|reflexivity].
  destruct idx as [|k [|? ?]]; try reflexivity.
  - rewrite offset_cons. destruct (decide (k < 3)); [|reflexivity].
    destruct i as [|[|i]]; [| |lia]; destruct k as [|[|[|k]]]; try lia; reflexivity.
  - rewrite offset_cons. destruct (decide (k < 3)); reflexivity.
Defined.

(** X4: on a sequence of length 1 the summary holds exactly the elements of
    the input: extraction from shape (batch, 1, dim, ...) only drops the
    dimension. *)
Theorem get_cls_single_position (F : Type) (t : Tensor F) (d0 d2 : nat)
    (rest : list nat) :
  shape t = d0 :: 1 :: d2 :: rest -> tensor_wf t ->
  get_cls (PyTensor t) = Ok (PyTensor (mkTensor (d0 :: d2 :: rest) (data t))).
Proof.
  intros Hsh Hwf.
  destruct (select_last_spec t d0 1 d2 rest Hsh ltac:(lia)) as (t' & E & Hsh' & H).
  destruct (H Hwf) as (Hwf' & Hget).
  change (get_cls (PyTensor t)) with (mapR PyTensor (select_last t)).
  rewrite E. unfold mapR, bindR. do 2 f_equal.
  assert (Hdata : data t' = data t).
  { apply (tensor_data_ext t' (mkTensor (d0 :: d2 :: rest) (data t))).
    - exact Hsh'.
    - exact Hwf'.
    - unfold tensor_wf in *. cbn [shape data]. rewrite Hwf, Hsh, !numel_cons. lia.
    - intros [|i idx].
      + unfold tensor_get. cbn [shape]. by rewrite Hsh'.
      + rewrite Hget. unfold tensor_get. rewrite Hsh. cbn [shape data].
        rewrite !offset_cons.
        destruct (decide (i < d0)); [|reflexivity].
        destruct (decide (1 - 1 < 1)); [|lia].
        destruct (offset (d2 :: rest) idx) as [o|]; [|reflexivity].
        cbn [option_map]. f_equal. rewrite numel_cons. lia. }
  destruct t'. simpl in *. congruence.
Qed.

Lemma get_cls_single_position_witness :
  get_cls (PyTensor (mkTensor [2; 1; 2] [1; 2; 3; 4]%Z))
  = Ok (PyTensor (mkTensor [2; 2] [1; 2; 3; 4]%Z)).
Proof.
  exact (get_cls_single_position Z (mkTensor [2; 1; 2] [1; 2; 3; 4]%Z) 2 2 []
           eq_refl eq_refl).
Defined.

(** ** Presets and the configuration dataclass *)

Lemma tiny_architecture_fill {F : Type} (a : gmap string (pyval F)) :
  tiny_architecture a = fill_defaults 2 a.
Proof.
  change (tiny_architecture a) with (base_architecture (fill_defaults 2 a)).
  rewrite base_architecture_fill. apply fill_defaults_absorb.
Qed.

Lemma large_architecture_fill {F : Type} (a : gmap string (pyval F)) :
  large_architecture a = fill_defaults 12 a.
Proof.
  change (large_architecture a) with (base_architecture (fill_defaults 12 a)).
  rewrite base_architecture_fill. apply fill_defaults_absorb.
Qed.

Lemma fill_defaults_id {F : Type} (layers : Z) (a : gmap string (pyval F)) :
  is_Some (a !! "gnn_number_layer") -> is_Some (a !! "gnn_embed_dim") ->
  fill_defaults layers a = a.
Proof.
  intros [v1 H1] [v2 H2]. apply map_eq. intros name.
  destruct (decide (name = "gnn_number_layer")) as [->|Hn1].
  { by rewrite fill_defaults_layers, H1. }
  destruct (decide (name = "gnn_embed_dim")) as [->|Hn2].
  { by rewrite fill_defaults_embed, H2. }
  by apply fill_defaults_other.
Qed.

(** X5: on a configuration that already holds [gnn_number_layer] and
    [gnn_embed_dim] the three presets change nothing at all, so they
    coincide there. *)
Theorem presets_identity_when_set (F : Type) (a : gmap string (pyval F)) :
  is_Some (a !! "gnn_number_layer") -> is_Some (a !! "gnn_embed_dim") ->
  base_architecture a = a /\ tiny_architecture a = a /\ large_architecture a = a.
Proof.
  intros H1 H2.
  rewrite base_architecture_fill, tiny_architecture_fill, large_architecture_fill.
  repeat split; by apply fill_defaults_id.
Qed.

Lemma presets_identity_when_set_witness :
  tiny_architecture (GCNConfig 1%Z 0%Z) = GCNConfig 1%Z 0%Z.
Proof.
  refine (proj1 (proj2 (presets_identity_when_set Z (GCNConfig 1%Z 0%Z) _ _)));
    vm_compute; eauto.
Defined.

(** X6: a configuration made of the [GCNConfig] field defaults, overridden
    by whatever the caller sets, is left unchanged by every preset: its layer
    count is the caller's if given and otherwise the dataclass default 12,
    never the 6 or 2 of the base and tiny presets, and its embedding
    dimension is the caller's or 384. *)
Theorem presets_on_dataclass (F : Type) (tenth zero : F)
    (overrides : gmap string (pyval F)) :
  base_architecture (overrides ∪ GCNConfig tenth zero) = overrides ∪ GCNConfig tenth zero
  /\ tiny_architecture (overrides ∪ GCNConfig tenth zero)
     = overrides ∪ GCNConfig tenth zero
  /\ large_architecture (overrides ∪ GCNConfig tenth zero)
     = overrides ∪ GCNConfig tenth zero
  /\ tiny_architecture (overrides ∪ GCNConfig tenth zero) !! "gnn_number_layer"
     = Some (default (PyInt 12) (overrides !! "gnn_number_layer"))
  /\ tiny_architecture (overrides ∪ GCNConfig tenth zero) !! "gnn_embed_dim"
     = Some (default (PyInt 384) (overrides !! "gnn_embed_dim")).
Proof.
  assert (Hl : (overrides ∪ GCNConfig tenth zero) !! "gnn_number_layer"
               = Some (default (PyInt 12) (overrides !! "gnn_number_layer"))).
  { rewrite lookup_union. by destruct (overrides !! "gnn_number_layer"). }
  assert (He : (overrides ∪ GCNConfig tenth zero) !! "gnn_embed_dim"
               = Some (default (PyInt 384) (overrides !! "gnn_embed_dim"))).
  { rewrite lookup_union. by destruct (overrides !! "gnn_embed_dim"). }
  destruct (presets_identity_when_set F (overrides ∪ GCNConfig tenth zero))
    as (Hb & Ht & Hg); [by rewrite Hl|by rewrite He|].
  rewrite Hb, Ht, Hg. done.
Qed.

(** X7: of two presets applied one after the other the first one wins: the
    second changes nothing.  In particular every preset is idempotent, and
    tiny or large after base is base. *)
Theorem preset_first_wins (F : Type) (a : gmap string (pyval F)) :
  base_architecture (base_architecture a) = base_architecture a
  /\ tiny_architecture (base_architecture a) = base_architecture a
  /\ large_architecture (base_architecture a) = base_architecture a
  /\ base_architecture (tiny_architecture a) = tiny_architecture a
  /\ tiny_architecture (tiny_architecture a) = tiny_architecture a
  /\ large_architecture (tiny_architecture a) = tiny_architecture a
  /\ base_architecture (large_architecture a) = large_architecture a
  /\ tiny_architecture (large_architecture a) = large_architecture a
  /\ large_architecture (large_architecture a) = large_architecture a.
Proof.
  repeat first [rewrite tiny_architecture_fill | rewrite large_architecture_fill
               | rewrite base_architecture_fill].
  rewrite !fill_defaults_absorb. repeat split.
Qed.

(** ** Building a model and running it *)

Section MoreProperties.
Context {F Encoder Head World : Type} `{!Collaborators F Encoder Head World}.

Abbreviation St := (State F Encoder Head World).
Abbreviation Namespace := (gmap string (pyval F)).

Implicit Types (s : St) (name : option string) (fo : pyval F).
Implicit Types (ga gb kw : Namespace).

(** X8: [build_model] constructs the encoder from the configuration after
    the base preset has filled it, and fails exactly when that construction
    fails, with the same error.  The model it returns has no head, and its
    configuration is the caller's with the two defaults filled: it always
    holds [gnn_number_layer] and [gnn_embed_dim], and every attribute the
    caller set keeps its value. *)
Theorem build_model_spec (a : Namespace) (task : pyval F) (w : World) :
  (forall m w', build_model a task w = (Ok m, w') ->
     DeeperGCN (base_architecture a) w = (Ok (encoder m), w')
     /\ classification_heads m = ∅
     /\ args m = base_architecture a
     /\ is_Some (args m !! "gnn_number_layer")
     /\ is_Some (args m !! "gnn_embed_dim")
     /\ (forall k v, a !! k = Some v -> args m !! k = Some v))
  /\ (forall e w', build_model a task w = (Err e, w') <->
                   DeeperGCN (base_architecture a) w = (Err e, w')).
Proof.
  unfold build_model. split.
  - intros m w'. destruct (DeeperGCN (base_architecture a) w) as [[enc|e] w1];
      simpl; [|discriminate].
    intros [= <- <-]. simpl. rewrite base_architecture_fill.
    rewrite fill_defaults_layers, fill_defaults_embed.
    repeat split; eauto.
    intros k v Hk.
    destruct (decide (k = "gnn_number_layer")) as [->|H1].
    { by rewrite fill_defaults_layers, Hk. }
    destruct (decide (k = "gnn_embed_dim")) as [->|H2].
    { by rewrite fill_defaults_embed, Hk. }
    by rewrite fill_defaults_other.
  - intros e w'. destruct (DeeperGCN (base_architecture a) w) as [[enc|e1] w1];
      simpl; split; intros [= <- <-]; done.
Qed.

(** X9: a successful [forward] returns what the head registered under the
    given name returns on the two summaries (those [forward_embed] returns
    on the same arguments) and the relation; the call leaves the model and
    the warnings as they were and makes no encoder invocation beyond the two
    of the encoder pass. *)
Theorem forward_output sa sb ga gb rel fo name kw s s' (x : pyval F) :
  forward sa sb ga gb rel fo name kw s = (Ok x, s') ->
  exists a b s1 n h,
    forward_embed sa sb ga gb rel fo name kw s = (Ok (PyTuple [a; b]), s1)
    /\ name = Some n
    /\ classification_heads (self s) !! n = Some h
    /\ head_call h a b rel (world s1) = (Ok x, world s')
    /\ self s' = self s
    /\ encoder_calls s' = encoder_calls s1
    /\ warnings s' = warnings s.
Proof.
  rewrite forward_unfold, forward_embed_unfold. unfold bind.
  destruct (encode_pair_calls ga gb fo name kw s) as (Hself & Hwarn & _).
  destruct (encode_pair ga gb fo name kw s) as [[[a b]|e] s1]; simpl in *;
    [|discriminate].
  unfold heads_getitem. destruct name as [n|]; [|discriminate].
  rewrite Hself.
  destruct (classification_heads (self s) !! n) as [h|] eqn:Hh; [|discriminate].
  unfold extern. simpl.
  destruct (head_call h a b rel (world s1)) as [[x'|e] w1] eqn:E;
    [|simpl; discriminate].
  simpl. intros [= <- <-]. simpl.
  exists a, b, s1, n, h. repeat split; done.
Qed.

Lemma keyword_arguments_clash ga fo kw :
  is_Some (ga !! "features_only") \/ ~ ga ##ₘ kw ->
  keyword_arguments ga fo kw = Err TypeError.
Proof.
  intros H. unfold keyword_arguments. repeat case_decide; try done.
  destruct H; done.
Qed.

(** X10: when the first graph holds the key [features_only], or shares a key
    with the extra keyword arguments, the three forward methods fail with
    [TypeError] before the encoder is invoked: the state, the log of encoder
    invocations included, is untouched. *)
Theorem forward_repeated_keyword sa sb ga gb rel fo name kw s :
  is_Some (ga !! "features_only") \/ ~ ga ##ₘ kw ->
  forward sa sb ga gb rel fo name kw s = (Err TypeError, s)
  /\ forward_cons_neg sa sb ga gb rel fo name kw s = (Err TypeError, s)
  /\ forward_embed sa sb ga gb rel fo name kw s = (Err TypeError, s).
Proof.
  intros H.
  assert (Hpair : encode_pair ga gb fo name kw s = (Err TypeError, s)).
  { unfold encode_pair, bind, call_encoder.
    by rewrite (keyword_arguments_clash ga _ kw H). }
  rewrite forward_unfold, forward_cons_neg_unfold, forward_embed_unfold.
  unfold bind. by rewrite Hpair.
Qed.

(** X11: an exception raised by an encoder invocation propagates unchanged
    out of the three forward methods, in the state that invocation left.
    When the first invocation raises, the second graph is never encoded;
    when the second raises, its exception wins over whatever [get_cls]
    would have said about the first output. *)
Theorem forward_encoder_error sa sb ga gb rel fo name kw s :
  (forall e s1,
     call_encoder ga (effective_features_only fo name) kw s = (Err e, s1) ->
     forward sa sb ga gb rel fo name kw s = (Err e, s1)
     /\ forward_cons_neg sa sb ga gb rel fo name kw s = (Err e, s1)
     /\ forward_embed sa sb ga gb rel fo name kw s = (Err e, s1)
     /\ length (encoder_calls s1) <= S (length (encoder_calls s)))
  /\ (forall enc_a aux_a s1 e s2,
        call_encoder ga (effective_features_only fo name) kw s
        = (Ok (enc_a, aux_a), s1) ->
        call_encoder gb (effective_features_only fo name) kw s1 = (Err e, s2) ->
        forward sa sb ga gb rel fo name kw s = (Err e, s2)
        /\ forward_cons_neg sa sb ga gb rel fo name kw s = (Err e, s2)
        /\ forward_embed sa sb ga gb rel fo name kw s = (Err e, s2)).
Proof.
  split.
  - intros e s1 Ha.
    assert (Hpair : encode_pair ga gb fo name kw s = (Err e, s1)).
    { unfold encode_pair, bind. by rewrite Ha. }
    rewrite forward_unfold, forward_cons_neg_unfold, forward_embed_unfold.
    unfold bind. rewrite Hpair. repeat split.
    unfold call_encoder in Ha.
    destruct (keyword_arguments ga (effective_features_only fo name) kw).
    + destruct (encoder_call (encoder (self s)) a (world s)) as [r w].
      injection Ha as _ <-. simpl. rewrite length_app. simpl. lia.
    + injection Ha as _ <-. lia.
  - intros enc_a aux_a s1 e s2 Ha Hb.
    assert (Hpair : encode_pair ga gb fo name kw s = (Err e, s2)).
    { unfold encode_pair, bind. by rewrite Ha, Hb. }
    rewrite forward_unfold, forward_cons_neg_unfold, forward_embed_unfold.
    unfold bind. by rewrite Hpair.
Qed.

(** X12: after a successful registration under [n], [forward] under [n]
    finds the head: whenever the encoder pass and the summary extraction
    succeed, the call is the call of that head on the two summaries and the
    relation, exceptions included; it no longer fails at the lookup. *)
Theorem register_then_forward (n : string) (nc idim : option Z)
    sa sb ga gb rel fo kw s s1 s2 (a b : pyval F) :
  register_classification_head n nc idim s = (Ok tt, s1) ->
  forward_embed sa sb ga gb rel fo (Some n) kw s1 = (Ok (PyTuple [a; b]), s2) ->
  exists h,
    classification_heads (self s1) !! n = Some h
    /\ forward sa sb ga gb rel fo (Some n) kw s1 = extern (head_call h a b rel) s2.
Proof.
  intros Hreg Hemb.
  destruct (register_effect n nc idim s) as (_ & _ & _ & Hheads).
  rewrite Hreg in Hheads. simpl in Hheads.
  destruct Hheads as [[? _]|(_ & _ & h & Hh)]; [done|].
  exists h. split; [rewrite Hh; apply lookup_insert_eq|].
  revert Hemb. rewrite forward_unfold, forward_embed_unfold. unfold bind.
  pose proof (encode_pair_self ga gb fo (Some n) kw s1) as Hself.
  destruct (encode_pair ga gb fo (Some n) kw s1) as [[[a' b']|e] s2'];
    simpl in *; [|discriminate].
  unfold ret. intros [= <- <- <-]. simpl.
  rewrite Hself, Hh, lookup_insert_eq. simpl.
  unfold extern. by destruct (head_call h a' b' rel (world s2')) as [[x|e] w].
Qed.

Lemma call_encoder_with_heads (hs : gmap string Head) ga fo kw s :
  call_encoder ga fo kw (with_heads hs s)
  = ((call_encoder ga fo kw s).1, with_heads hs (call_encoder ga fo kw s).2).
Proof.
  unfold call_encoder, with_heads. simpl.
  destruct (keyword_arguments ga fo kw); [|done].
  by destruct (encoder_call (encoder (self s)) a (world s)).
Qed.

(** X13: [forward_embed] does not use the head mapping: with any other
    mapping in place of the model's it returns the same result and leaves the
    same state, so it needs no registered head, and the head name passed to
    it only decides [features_only]. *)
Theorem forward_embed_ignores_heads (hs : gmap string Head)
    sa sb ga gb rel fo name kw s :
  forward_embed sa sb ga gb rel fo name kw (with_heads hs s)
  = ((forward_embed sa sb ga gb rel fo name kw s).1,
     with_heads hs (forward_embed sa sb ga gb rel fo name kw s).2).
Proof.
  rewrite !forward_embed_unfold. unfold bind, encode_pair, bind.
  rewrite call_encoder_with_heads.
  destruct (call_encoder ga (effective_features_only fo name) kw s)
    as [[[ea aa]|e] s1]; simpl; [|done].
  rewrite call_encoder_with_heads.
  destruct (call_encoder gb (effective_features_only fo name) kw s1)
    as [[[eb ab]|e] s2]; simpl; [|done].
  unfold lift, ret. destruct (get_cls ea); simpl; [|done].
  destruct (get_cls eb); simpl; done.
Qed.

(** *** Registration *)

Lemma build_head_ok cls (n : string) (nc idim : option Z) s
    (h : Head) (embed activation dropout : pyval F) (w' : World) :
  args (self s) !! "gnn_embed_dim" = Some embed ->
  args (self s) !! "pooler_activation_fn" = Some activation ->
  args (self s) !! "pooler_dropout" = Some dropout ->
  cls (default embed (encoder_output_features (encoder (self s))))
    (if truthy idim then opt_int idim else embed)
    (opt_int nc) activation dropout (world s) = (Ok h, w') ->
  build_head cls n nc idim s
  = (Ok tt,
     mkState
       (mkGCNModel (args (self s)) (encoder (self s))
          (<[n := h]> (classification_heads (self s))))
       w' (encoder_calls s) (warnings s)).
Proof.
  intros Hembed Hact Hdrop Hc.
  unfold build_head, bind, self_args, getattr, gets, ret, extern, heads_setitem.
  simpl. rewrite Hembed. simpl.
  destruct (truthy idim); simpl; rewrite ?Hembed, Hact; simpl;
    rewrite Hdrop; simpl; rewrite Hc; done.
Qed.

Lemma register_supported (n : string) (nc idim : option Z) s :
  supported n ->
  register_classification_head n nc idim s
  = bind (warn_if_resized n nc idim) (fun _ => build_head (head_class n) n nc idim) s.
Proof.
  intros Hsup. rewrite register_phases. unfold bind, head_class.
  destruct (warn_if_resized n nc idim s) as [[[]|e] s1]; [|done].
  destruct Hsup as [-> | ->]; repeat case_decide; done.
Qed.

(** X14: the first registration of a supported name, on a configuration
    that holds the three attributes the construction reads and with a head
    class that returns a head [h], succeeds, stores [h] under the name, and
    logs no warning, whatever the requested sizes.  The head is built from
    the encoder's [output_features] when it has one and from
    [gnn_embed_dim] otherwise, and from [inner_dim] when it is given and not
    0 and from [gnn_embed_dim] otherwise. *)
Theorem register_first_time (n : string) (nc idim : option Z) s
    (h : Head) (embed activation dropout : pyval F) (w' : World) :
  supported n ->
  classification_heads (self s) !! n = None ->
  args (self s) !! "gnn_embed_dim" = Some embed ->
  args (self s) !! "pooler_activation_fn" = Some activation ->
  args (self s) !! "pooler_dropout" = Some dropout ->
  head_class n
    (default embed (encoder_output_features (encoder (self s))))
    (if truthy idim then opt_int idim else embed)
    (opt_int nc) activation dropout (world s) = (Ok h, w') ->
  register_classification_head n nc idim s
  = (Ok tt,
     mkState
       (mkGCNModel (args (self s)) (encoder (self s))
          (<[n := h]> (classification_heads (self s))))
       w' (encoder_calls s) (warnings s)).
Proof.
  intros Hsup Habs Hembed Hact Hdrop Hcls.
  rewrite (register_supported n nc idim s Hsup). unfold bind.
  rewrite (warn_if_resized_absent n nc idim s Habs).
  by apply (build_head_ok _ n nc idim s h embed activation dropout w').
Qed.

(** X15: [inner_dim = 0] is taken as no [inner_dim] at all: registering a
    name that has no head yet with [inner_dim = 0] does exactly what
    registering it without [inner_dim] does. *)
Theorem register_inner_dim_zero (n : string) (nc : option Z) s :
  classification_heads (self s) !! n = None ->
  register_classification_head n nc (Some 0%Z) s
  = register_classification_head n nc None s.
Proof.
  intros Habs. rewrite !register_phases. unfold bind.
  by rewrite !(warn_if_resized_absent n nc _ s Habs).
Qed.

Lemma differs_false (requested : option Z) (prev : Z) :
  differs requested prev = false <-> requested = Some prev.
Proof.
  destruct requested as [r|]; simpl.
  - rewrite negb_false_iff, Z.eqb_eq. split; congruence.
  - split; discriminate.
Qed.

(** X16: registering a name that already has a head whose sizes can be read
    logs a warning, whether or not the registration then succeeds, unless
    both [num_classes] and [inner_dim] are given and equal the sizes of that
    head; in particular a registration without [inner_dim] always warns. *)
Theorem register_again_warns (n : string) (nc idim : option Z) s
    (prev : Head) (p_nc p_id : Z) :
  classification_heads (self s) !! n = Some prev ->
  out_proj_out_features prev = Ok p_nc ->
  dense_out_features prev = Ok p_id ->
  (nc = Some p_nc /\ idim = Some p_id ->
   warnings (register_classification_head n nc idim s).2 = warnings s)
  /\ (~ (nc = Some p_nc /\ idim = Some p_id) ->
      warnings (register_classification_head n nc idim s).2
      = warnings s ++ [mkWarning n nc p_nc idim p_id])
  /\ (idim = None ->
      warnings (register_classification_head n nc idim s).2
      = warnings s ++ [mkWarning n nc p_nc idim p_id]).
Proof.
  intros Hprev Hnc Hid.
  assert (Hw : warnings (register_classification_head n nc idim s).2
               = warnings s ++
                   if differs nc p_nc || differs idim p_id
                   then [mkWarning n nc p_nc idim p_id] else []).
  { rewrite register_phases. unfold bind.
    rewrite (warn_if_resized_present n nc idim s prev p_nc p_id Hprev Hnc Hid).
    repeat case_decide;
      try (match goal with
           | |- context [build_head ?cls _ _ _ ?st] =>
               destruct (build_head_effect cls n nc idim st) as (_ & _ & _ & -> & _)
           end); done. }
  rewrite Hw. split; [|split].
  - intros [H1 H2]. apply differs_false in H1, H2. rewrite H1, H2. simpl.
    apply app_nil_r.
  - intros Hne. destruct (differs nc p_nc) eqn:E1; [done|].
    destruct (differs idim p_id) eqn:E2; [done|].
    apply differs_false in E1, E2. tauto.
  - intros ->. simpl. by rewrite orb_true_r.
Qed.

(** X17: a registration that fails, for whatever reason and under whatever
    name, leaves the model instance as it was (no head added, removed or
    replaced, same configuration, same encoder) and has made no encoder
    invocation. *)
Theorem register_failure_keeps_model (n : string) (nc idim : option Z) s :
  is_ok (register_classification_head n nc idim s).1 = false ->
  self (register_classification_head n nc idim s).2 = self s
  /\ encoder_calls (register_classification_head n nc idim s).2 = encoder_calls s.
Proof.
  intros Hfail.
  destruct (register_effect n nc idim s)
    as (Hargs & Henc & Hcalls & [[_ Hheads]|(Hok & _)]); [|congruence].
  split; [|exact Hcalls].
  destruct (self (register_classification_head n nc idim s).2) as [a e hs].
  destruct (self s) as [a0 e0 hs0]. simpl in *. congruence.
Qed.

(** X18: the default of the [output_features] lookup is evaluated before
    the lookup: on a configuration without [gnn_embed_dim] the first
    registration of a supported name fails with [AttributeError] on
    [gnn_embed_dim], even when the encoder has [output_features] and
    [inner_dim] is given, and the state is untouched. *)
Theorem register_needs_embed_dim (n : string) (nc idim : option Z) s :
  supported n ->
  classification_heads (self s) !! n = None ->
  args (self s) !! "gnn_embed_dim" = None ->
  register_classification_head n nc idim s
  = (Err (AttributeError "gnn_embed_dim"), s).
Proof.
  intros Hsup Habs Hembed.
  rewrite (register_supported n nc idim s Hsup). unfold bind.
  rewrite (warn_if_resized_absent n nc idim s Habs).
  unfold build_head, bind, self_args, getattr. by rewrite Hembed.
Qed.

(** *** Over the life of a model instance *)

Lemma warn_if_resized_warnings (n : string) (nc idim : option Z) s :
  exists l, warnings (warn_if_resized n nc idim s).2 = warnings s ++ l.
Proof.
  unfold warn_if_resized, bind, gets, lift, ret, logger_warning.
  repeat (case_match; simplify_eq/=);
    first [by exists [] ; rewrite app_nil_r | by eexists].
Qed.

Lemma register_warnings (n : string) (nc idim : option Z) s :
  exists l, warnings (register_classification_head n nc idim s).2 = warnings s ++ l.
Proof.
  rewrite register_phases. unfold bind.
  destruct (warn_if_resized_warnings n nc idim s) as (l & Hl).
  destruct (warn_if_resized n nc idim s) as [[[]|e] s1]; simpl in *; [|eauto].
  exists l. rewrite <- Hl.
  repeat case_decide;
    try (match goal with
         | |- context [build_head ?cls _ _ _ ?st] =>
             destruct (build_head_effect cls n nc idim st) as (_ & _ & _ & -> & _)
         end); done.
Qed.

(** What one method call keeps. *)
Lemma run_method_keeps (c : method) s :
  args (self (run_method c s)) = args (self s)
  /\ encoder (self (run_method c s)) = encoder (self s)
  /\ (exists l, encoder_calls (run_method c s) = encoder_calls s ++ l)
  /\ (exists l, warnings (run_method c s) = warnings s ++ l)
  /\ (forall n, is_Some (classification_heads (self s) !! n) ->
                is_Some (classification_heads (self (run_method c s)) !! n))
  /\ (forall n, is_Some (classification_heads (self (run_method c s)) !! n) ->
                is_Some (classification_heads (self s) !! n) \/ supported n).
Proof.
  assert (Hfwd : forall (k : pyval F * pyval F -> M St (pyval F)) ga gb fo name kw,
            (forall p, quiet (k p)) ->
            let s' := (bind (encode_pair ga gb fo name kw) k s).2 in
            args (self s') = args (self s)
            /\ encoder (self s') = encoder (self s)
            /\ (exists l, encoder_calls s' = encoder_calls s ++ l)
            /\ (exists l, warnings s' = warnings s ++ l)
            /\ (forall n, is_Some (classification_heads (self s) !! n) ->
                          is_Some (classification_heads (self s') !! n))
            /\ (forall n, is_Some (classification_heads (self s') !! n) ->
                          is_Some (classification_heads (self s) !! n) \/ supported n)).
  { intros k ga gb fo name kw Hk s'.
    destruct (encode_then_quiet k ga gb fo name kw Hk) as (Hframe & Hcalls).
    destruct (Hframe s) as (Hself & Hwarn).
    destruct (Hcalls s) as (l & Hl & _).
    subst s'. rewrite Hself, Hwarn. repeat split; eauto.
    exists []. by rewrite app_nil_r. }
  destruct c as [sa sb ga gb rel fo name kw|sa sb ga gb rel fo name kw
                |sa sb ga gb rel fo name kw|n nc idim|]; cbn [run_method].
  - rewrite forward_unfold. apply Hfwd. intros p. apply forward_quiet_rest.
  - rewrite forward_cons_neg_unfold. apply Hfwd. intros p.
    apply forward_cons_neg_quiet_rest.
  - rewrite forward_embed_unfold. apply Hfwd. intros p. apply quiet_ret.
  - destruct (register_effect n nc idim s) as (-> & -> & -> & Hheads).
    destruct (register_warnings n nc idim s) as (l & ->).
    split; [done|]. split; [done|]. split; [exists []; by rewrite app_nil_r|].
    split; [eauto|].
    destruct Hheads as [[_ ->]|(_ & Hsup & h & ->)]; [eauto|].
    split; intros m.
    + intros Hm. destruct (decide (n = m)) as [->|Hne].
      * rewrite lookup_insert_eq. eauto.
      * by rewrite lookup_insert_ne.
    + destruct (decide (n = m)) as [->|Hne]; [auto|].
      rewrite lookup_insert_ne by done. auto.
  - simpl. repeat split; eauto; exists []; by rewrite app_nil_r.
Qed.

Lemma reaches_keeps (s0 s : St) :
  reaches s0 s ->
  args (self s) = args (self s0)
  /\ encoder (self s) = encoder (self s0)
  /\ (exists l, encoder_calls s = encoder_calls s0 ++ l)
  /\ (exists l, warnings s = warnings s0 ++ l)
  /\ (forall n, is_Some (classification_heads (self s0) !! n) ->
                is_Some (classification_heads (self s) !! n))
  /\ (forall n, is_Some (classification_heads (self s) !! n) ->
                is_Some (classification_heads (self s0) !! n) \/ supported n).
Proof.
  induction 1 as [|c s Hs (IHa & IHe & (lc & IHc) & (lw & IHw) & IHh & IHk)].
  - repeat split; eauto; exists []; by rewrite app_nil_r.
  - destruct (run_method_keeps c s) as (-> & -> & (lc' & ->) & (lw' & ->) & Hh & Hk).
    split; [done|]. split; [done|].
    split; [exists (lc ++ lc'); by rewrite IHc, app_assoc|].
    split; [exists (lw ++ lw'); by rewrite IHw, app_assoc|].
    split; [eauto|].
    intros n Hn. destruct (Hk n Hn); eauto.
Qed.

(** X19: whatever methods are called on a model instance, in whatever order
    and with whatever outcome: its configuration and its encoder never
    change; the log of encoder invocations and the log of warnings only grow
    at the end; a head, once registered, is never unregistered; and a name
    that gains a head is a supported one. *)
Theorem model_lifetime (s0 s : St) :
  reaches s0 s ->
  args (self s) = args (self s0)
  /\ encoder (self s) = encoder (self s0)
  /\ (exists l, encoder_calls s = encoder_calls s0 ++ l)
  /\ (exists l, warnings s = warnings s0 ++ l)
  /\ (forall n, is_Some (classification_heads (self s0) !! n) ->
                is_Some (classification_heads (self s) !! n))
  /\ (forall n, is_Some (classification_heads (self s) !! n) ->
                is_Some (classification_heads (self s0) !! n) \/ supported n).
Proof. apply reaches_keeps. Qed.

(** X20: a model instance never holds more than two heads. *)
Theorem at_most_two_heads (s : St) :
  reachable s -> size (classification_heads (self s)) <= 2.
Proof.
  intros Hs. rewrite <- size_dom.
  assert (Hsub : dom (classification_heads (self s))
                 ⊆ ({[ "bclsmlp"; "bclsFeatInt" ]} : gset string)).
  { intros n Hn. apply elem_of_dom in Hn as [h Hh].
    destruct (reachable_heads_supported s Hs n h Hh) as [-> | ->]; set_solver. }
  apply subseteq_size in Hsub. etrans; [exact Hsub|].
  rewrite size_union by set_solver. rewrite !size_singleton. lia.
Qed.

(** X21: [max_positions] returns the configured [max_positions], or raises
    [AttributeError] when the configuration has none, and changes nothing;
    its answer is the same at every point of the life of a model instance. *)
Theorem max_positions_stable (s0 s : St) :
  reaches s0 s ->
  max_positions s = (getattr (args (self s0)) "max_positions", s)
  /\ (max_positions s).1 = (max_positions s0).1
  /\ (args (self s0) !! "max_positions" = None ->
      (max_positions s).1 = Err (AttributeError "max_positions")).
Proof.
  intros Hs. destruct (reaches_keeps s0 s Hs) as (Hargs & _).
  unfold max_positions, self_args. rewrite Hargs. repeat split.
  simpl. unfold getattr. by intros ->.
Qed.

End MoreProperties.

(** ** The further properties on concrete runs *)

Lemma get_cls_domain_witness :
  is_ok (get_cls (PyTensor Toy.toy_tensor)) = true
  /\ get_cls (PyStr "x" : pyval Z) = Err ValueError.
Proof.
  destruct (get_cls_domain Z (PyTensor Toy.toy_tensor)) as (Hok & _).
  destruct (get_cls_domain Z (PyStr "x")) as (_ & Hval & _).
  split.
  - apply Hok. right. left. exists Toy.toy_tensor, 2, 1, 3, []. done.
  - apply Hval. repeat split.
Defined.

Lemma build_model_spec_witness :
  exists m, build_model (Collaborators0:=Toy.toy_collaborators)
              (<["gnn_number_layer" := PyInt 3]> ∅) PyNone 0 = (Ok m, 1)
    /\ classification_heads m = ∅
    /\ args m !! "gnn_number_layer" = Some (PyInt 3)
    /\ is_Some (args m !! "gnn_embed_dim").
Proof.
  destruct (build_model (Collaborators0:=Toy.toy_collaborators)
              (<["gnn_number_layer" := PyInt 3]> ∅) PyNone 0) as [[m|e] w] eqn:E.
  - destruct (build_model_spec (Collaborators0:=Toy.toy_collaborators)
                (<["gnn_number_layer" := PyInt 3]> ∅) PyNone 0) as (Hok & _).
    destruct (Hok m w E) as (Hd & Hheads & _ & _ & Hembed & Hkeep).
    exists m. vm_compute in Hd. injection Hd as _ <-.
    split; [reflexivity|]. split; [exact Hheads|]. split; [|exact Hembed].
    apply Hkeep. reflexivity.
  - vm_compute in E. discriminate E.
Defined.

Lemma forward_output_witness :
  exists x,
    (forward PyNone PyNone (Toy.toy_graph 1) (Toy.toy_graph 2) (PyInt 3)
       (PyBool false) (Some "bclsmlp") ∅ Toy.toy_registered).1 = Ok x
    /\ exists h a b w,
         classification_heads (self Toy.toy_registered) !! "bclsmlp" = Some h
         /\ head_call h a b (PyInt 3) 3 = (Ok x, w).
Proof.
  destruct (forward PyNone PyNone (Toy.toy_graph 1) (Toy.toy_graph 2) (PyInt 3)
              (PyBool false) (Some "bclsmlp") ∅ Toy.toy_registered)
    as [[x|e] s'] eqn:E.
  - destruct (forward_output (Collaborators0:=Toy.toy_collaborators)
                _ _ _ _ _ _ _ _ _ _ _ E)
      as (a & b & s1 & n & h & Hemb & Hn & Hh & Hcall & _).
    injection Hn as <-. exists x. split; [reflexivity|].
    exists h, a, b, (world s'). split; [exact Hh|].
    vm_compute in Hemb. injection Hemb as _ _ <-. exact Hcall.
  - vm_compute in E. discriminate E.
Defined.

Lemma forward_repeated_keyword_witness :
  forward PyNone PyNone (<["features_only" := PyBool false]> (Toy.toy_graph 1))
    (Toy.toy_graph 2) (PyInt 3) (PyBool false) (Some "bclsmlp") ∅ Toy.toy_registered
  = (Err TypeError, Toy.toy_registered).
Proof.
  refine (proj1 (forward_repeated_keyword (Collaborators0:=Toy.toy_collaborators)
            PyNone PyNone (<["features_only" := PyBool false]> (Toy.toy_graph 1))
            (Toy.toy_graph 2) (PyInt 3) (PyBool false) (Some "bclsmlp") ∅
            Toy.toy_registered _)).
  left. vm_compute. eauto.
Defined.

Lemma forward_encoder_error_witness :
  (forward PyNone PyNone (Toy.toy_graph 1) Flaky.failing_graph (PyInt 3)
     (PyBool false) None ∅ (Flaky.flaky_state (PyStr "x"))).1
  = Err (Raised "encoder")
  /\ (forward PyNone PyNone Flaky.failing_graph (Toy.toy_graph 1) (PyInt 3)
        (PyBool false) None ∅ (Flaky.flaky_state (PyStr "x"))).1
     = Err (Raised "encoder").
Proof.
  split.
  - destruct (proj2 (forward_encoder_error (Collaborators0:=Flaky.flaky_collaborators)
                PyNone PyNone (Toy.toy_graph 1) Flaky.failing_graph (PyInt 3)
                (PyBool false) None ∅ (Flaky.flaky_state (PyStr "x")))
              (PyStr "x") PyNone
              (call_encoder (Toy.toy_graph 1) (PyBool false) ∅
                 (Flaky.flaky_state (PyStr "x"))).2
              (Raised "encoder")
              (call_encoder Flaky.failing_graph (PyBool false) ∅
                 (call_encoder (Toy.toy_graph 1) (PyBool false) ∅
                    (Flaky.flaky_state (PyStr "x"))).2).2)
      as (Hf & _).
    + vm_compute. reflexivity.
    + vm_compute. reflexivity.
    + rewrite Hf. reflexivity.
  - destruct (proj1 (forward_encoder_error (Collaborators0:=Flaky.flaky_collaborators)
                PyNone PyNone Flaky.failing_graph (Toy.toy_graph 1) (PyInt 3)
                (PyBool false) None ∅ (Flaky.flaky_state (PyStr "x")))
              (Raised "encoder")
              (call_encoder Flaky.failing_graph (PyBool false) ∅
                 (Flaky.flaky_state (PyStr "x"))).2)
      as (Hf & _).
    + vm_compute. reflexivity.
    + rewrite Hf. reflexivity.
Defined.

Lemma register_then_forward_witness :
  (forward PyNone PyNone (Toy.toy_graph 1) (Toy.toy_graph 2) (PyInt 3)
     (PyBool false) (Some "bclsFeatInt") ∅
     (register_classification_head "bclsFeatInt" (Some 2%Z) None
        Toy.toy_registered).2).1
  = Ok (PyTuple [PyStr "forward"; PyStr "BinaryClassFeatIntegrationHead";
                 PyTensor (mkTensor [2; 3] [4; 5; 6; 10; 11; 12]%Z);
                 PyTensor (mkTensor [2; 3] [4; 5; 6; 10; 11; 12]%Z);
                 PyInt 3]).
Proof.
  destruct (register_then_forward (Collaborators0:=Toy.toy_collaborators)
              "bclsFeatInt" (Some 2%Z) None
              PyNone PyNone (Toy.toy_graph 1) (Toy.toy_graph 2) (PyInt 3)
              (PyBool false) ∅ Toy.toy_registered
              (register_classification_head "bclsFeatInt" (Some 2%Z) None
                 Toy.toy_registered).2
              (forward_embed PyNone PyNone (Toy.toy_graph 1) (Toy.toy_graph 2)
                 (PyInt 3) (PyBool false) (Some "bclsFeatInt") ∅
                 (register_classification_head "bclsFeatInt" (Some 2%Z) None
                    Toy.toy_registered).2).2
              (PyTensor (mkTensor [2; 3] [4; 5; 6; 10; 11; 12]%Z))
              (PyTensor (mkTensor [2; 3] [4; 5; 6; 10; 11; 12]%Z)))
    as (h & Hh & Hf).
  - vm_compute. reflexivity.
  - vm_compute. reflexivity.
  - rewrite Hf. vm_compute in Hh. injection Hh as <-. vm_compute. reflexivity.
Defined.

Lemma register_first_time_witness :
  register_classification_head "bclsmlp" (Some 2%Z) None
    (Toy.toy_state (PyTensor Toy.toy_tensor))
  = (Ok tt,
     mkState
       (mkGCNModel Toy.toy_args (Toy.mkToyEncoder (PyTensor Toy.toy_tensor) None)
          (<["bclsmlp" :=
               Toy.mkToyHead "BinaryClassMLPHead" (PyInt 384) (PyInt 384) (PyInt 2)
                 (PyStr "tanh") (PyInt 0)]> ∅))
       1 [] []).
Proof.
  refine (register_first_time (Collaborators0:=Toy.toy_collaborators)
            "bclsmlp" (Some 2%Z) None (Toy.toy_state (PyTensor Toy.toy_tensor))
            _ (PyInt 384) (PyStr "tanh") (PyInt 0) 1 _ _ _ _ _ _).
  - left. reflexivity.
  - reflexivity.
  - vm_compute. reflexivity.
  - vm_compute. reflexivity.
  - vm_compute. reflexivity.
  - vm_compute. reflexivity.
Defined.

Lemma register_inner_dim_zero_witness :
  register_classification_head "bclsmlp" (Some 2%Z) (Some 0%Z)
    (Toy.toy_state (PyTensor Toy.toy_tensor))
  = register_classification_head "bclsmlp" (Some 2%Z) None
      (Toy.toy_state (PyTensor Toy.toy_tensor)).
Proof.
  apply (register_inner_dim_zero (Collaborators0:=Toy.toy_collaborators)).
  reflexivity.
Defined.

Lemma register_again_warns_witness :
  warnings (register_classification_head "bclsmlp" (Some 2%Z) (Some 384%Z)
              Toy.toy_registered).2 = []
  /\ warnings (register_classification_head "bclsmlp" (Some 2%Z) None
                 Toy.toy_registered).2
     = [mkWarning "bclsmlp" (Some 2%Z) 2 None 384].
Proof.
  destruct (register_again_warns (Collaborators0:=Toy.toy_collaborators)
              "bclsmlp" (Some 2%Z) (Some 384%Z) Toy.toy_registered
              (Toy.mkToyHead "BinaryClassMLPHead" (PyInt 384) (PyInt 384) (PyInt 2)
                 (PyStr "tanh") (PyInt 0)) 2%Z 384%Z)
    as (Hsame & _); [vm_compute; reflexivity|reflexivity|reflexivity|].
  destruct (register_again_warns (Collaborators0:=Toy.toy_collaborators)
              "bclsmlp" (Some 2%Z) None Toy.toy_registered
              (Toy.mkToyHead "BinaryClassMLPHead" (PyInt 384) (PyInt 384) (PyInt 2)
                 (PyStr "tanh") (PyInt 0)) 2%Z 384%Z)
    as (_ & _ & Hnone); [vm_compute; reflexivity|reflexivity|reflexivity|].
  split.
  - rewrite Hsame; [reflexivity|]. split; reflexivity.
  - rewrite Hnone; reflexivity.
Defined.

Lemma register_failure_keeps_model_witness :
  is_ok (register_classification_head "bclsmlp" None None Toy.toy_registered).1
  = false
  /\ self (register_classification_head "bclsmlp" None None Toy.toy_registered).2
     = self Toy.toy_registered.
Proof.
  split; [vm_compute; reflexivity|].
  apply (register_failure_keeps_model (Collaborators0:=Toy.toy_collaborators)).
  vm_compute. reflexivity.
Defined.

Lemma register_needs_embed_dim_witness :
  register_classification_head "bclsFeatInt" (Some 2%Z) (Some 16%Z)
    (Flaky.flaky_state PyNone)
  = (Err (AttributeError "gnn_embed_dim"), Flaky.flaky_state PyNone).
Proof.
  apply (register_needs_embed_dim (Collaborators0:=Flaky.flaky_collaborators)).
  - right. reflexivity.
  - reflexivity.
  - reflexivity.
Defined.

Lemma model_lifetime_witness :
  args (self Toy.toy_registered) = Toy.toy_args
  /\ is_Some (classification_heads (self Toy.toy_registered) !! "bclsmlp").
Proof.
  destruct (model_lifetime (Collaborators0:=Toy.toy_collaborators)
              (Toy.toy_state (PyTensor Toy.toy_tensor)) Toy.toy_registered)
    as (Hargs & _ & _ & _ & _ & Hnew).
  - exact (reaches_step _ (RegisterClassificationHead "bclsmlp" (Some 2%Z) None) _
             (reaches_refl _)).
  - split; [exact Hargs|]. vm_compute. eauto.
Defined.

Lemma at_most_two_heads_witness :
  size (classification_heads (self Toy.toy_registered)) <= 2.
Proof.
  apply (at_most_two_heads (Collaborators0:=Toy.toy_collaborators)).
  exact (reachable_step (RegisterClassificationHead "bclsmlp" (Some 2%Z) None) _
           (reachable_fresh Toy.toy_args
              (Toy.mkToyEncoder (PyTensor Toy.toy_tensor) None) 0 [] [])).
Defined.

Lemma max_positions_stable_witness :
  (max_positions Toy.toy_registered).1 = Err (AttributeError "max_positions").
Proof.
  destruct (max_positions_stable (Collaborators0:=Toy.toy_collaborators)
              (Toy.toy_state (PyTensor Toy.toy_tensor)) Toy.toy_registered)
    as (_ & _ & Hnone).
  - exact (reaches_step _ (RegisterClassificationHead "bclsmlp" (Some 2%Z) None) _
             (reaches_refl _)).
  - apply Hnone. reflexivity.
Defined.
